(** * SwiftCODE models: game lifecycle, membership and statistics

    A shallow embedding of [src/models.js] (the Mongoose models of the
    typing-race server) together with the properties its specification
    states about joining, leaving, the lobby state machine, its timers and
    the statistics of a finished race.

    Conventions of the embedding.
    - A Mongoose document is a record; a method that assigns fields of
      [this] is a function returning the updated record.
    - The collections, the [gameTimeouts] dictionary, the event bus and the
      log form one [World]; an asynchronous method is a function from the
      world before the call to the world after its callback chain has run.
    - A callback is an [Outcome]: the arguments it was invoked with, or
      [NoCallback] when the chain ends without invoking it, or [Threw] when
      the chain dereferences [null].
    - A JavaScript Number is an exact rational extended with the two
      infinities and NaN ([number]); the rounding of IEEE doubles and the
      sign of zero are not modelled.  Counters that only ever hold integers
      ([numPlayers], [maxPlayers], delays and dates in milliseconds) are [Z].
    - The clock is read at most twice in one synchronous run.  [now] is
      what [moment()] reads; the read that sets a [startTime] is followed
      by the read of [setupTiming], and between the two the clock advances
      by the [lag] of the world. *)

From stdpp Require Import base decidable option list strings gmap numbers pretty.
From Stdlib Require Import ZArith QArith Qcanon Qround Ascii Lia Lqa.

Open Scope Z_scope.

(** ** JavaScript numbers *)

Module Number.

Inductive number : Type :=
  | Num (q : Qc)
  | PosInf
  | NegInf
  | NaN.

#[global] Instance number_eq_dec : EqDecision number.
Proof. solve_decision. Defined.

Definition ofZ (z : Z) : number := Num (Q2Qc (inject_Z z)).

(** The sign of a finite value, as [Qccompare] against zero. *)
Definition sgn (q : Qc) : comparison := (q ?= 0)%Qc.

Definition neg (a : number) : number :=
  match a with
  | Num q => Num (- q)%Qc
  | PosInf => NegInf
  | NegInf => PosInf
  | NaN => NaN
  end.

Definition add (a b : number) : number :=
  match a, b with
  | NaN, _ | _, NaN => NaN
  | Num p, Num q => Num (p + q)%Qc
  | PosInf, NegInf | NegInf, PosInf => NaN
  | PosInf, _ | _, PosInf => PosInf
  | NegInf, _ | _, NegInf => NegInf
  end.

Definition sub (a b : number) : number := add a (neg b).

(** An infinity of the given sign; a zero sign stands for [0 * Infinity]. *)
Definition inf_of (s : comparison) : number :=
  match s with Gt => PosInf | Lt => NegInf | Eq => NaN end.

Definition sgn_mul (s t : comparison) : comparison :=
  match s, t with
  | Eq, _ | _, Eq => Eq
  | Gt, Gt | Lt, Lt => Gt
  | _, _ => Lt
  end.

Definition sign (a : number) : comparison :=
  match a with
  | Num q => sgn q
  | PosInf => Gt
  | NegInf => Lt
  | NaN => Eq
  end.

Definition mul (a b : number) : number :=
  match a, b with
  | NaN, _ | _, NaN => NaN
  | Num p, Num q => Num (p * q)%Qc
  | _, _ => inf_of (sgn_mul (sign a) (sign b))
  end.

(** [a / b]: a finite value over zero is an infinity of the sign of the
    numerator ([0 / 0] is NaN), a finite value over an infinity is zero. *)
Definition div (a b : number) : number :=
  match a, b with
  | NaN, _ | _, NaN => NaN
  | Num p, Num q =>
      if decide (q = 0%Qc) then inf_of (sgn p) else Num (p / q)%Qc
  | Num _, _ => Num 0%Qc
  | _, Num q => if decide (q = 0%Qc) then a else inf_of (sgn_mul (sign a) (sgn q))
  | _, _ => NaN
  end.

(** [Math.abs]. *)
Definition abs (a : number) : number :=
  match a with
  | Num q => if decide (q < 0)%Qc then Num (- q)%Qc else Num q
  | PosInf | NegInf => PosInf
  | NaN => NaN
  end.

(** [a < b]; every comparison with NaN is false. *)
Definition ltb (a b : number) : bool :=
  match a, b with
  | NaN, _ | _, NaN => false
  | Num p, Num q => bool_decide (p < q)%Qc
  | NegInf, NegInf => false
  | NegInf, _ => true
  | _, PosInf => match a with PosInf => false | _ => true end
  | _, _ => false
  end.

Definition gtb (a b : number) : bool := ltb b a.

(** [a === b] on numbers: NaN is different from everything. *)
Definition eqb (a b : number) : bool :=
  match a, b with
  | NaN, _ | _, NaN => false
  | _, _ => bool_decide (a = b)
  end.

(** [Math.min(a, b)] and [Math.max(a, b)]: NaN when an argument is NaN. *)
Definition min (a b : number) : number :=
  match a, b with
  | NaN, _ | _, NaN => NaN
  | _, _ => if ltb b a then b else a
  end.

Definition max (a b : number) : number :=
  match a, b with
  | NaN, _ | _, NaN => NaN
  | _, _ => if ltb a b then b else a
  end.

(** Truthiness of a number: [0] and NaN are falsy. *)
Definition truthy (a : number) : bool :=
  match a with
  | Num q => bool_decide (q ≠ 0%Qc)
  | PosInf | NegInf => true
  | NaN => false
  end.

(** A Number-typed path of a document: [None] is [undefined]. *)
Definition field := option number.

(** [v || d] for a Number-typed path. *)
Definition or_else (v : field) (d : number) : number :=
  match v with
  | Some a => if truthy a then a else d
  | None => d
  end.

(** A path read in an arithmetic context: [undefined] converts to NaN. *)
Definition toNumber (v : field) : number :=
  match v with
  | Some a => a
  | None => NaN
  end.

End Number.

Import Number.

(** ** Constant configs *)

Definition ANONYMOUS_ID_MIN : Z := 1000.
Definition ANONYMOUS_ID_MAX : Z := 10000.
Definition GAME_TIME_JOIN_CUTOFF_MS : Z := 5000.
Definition GAME_SINGLE_PLAYER_WAIT_TIME : Z := 5.
Definition GAME_MULTI_PLAYER_WAIT_TIME : Z := 20.
Definition GAME_DEFAULT_MAX_PLAYERS : Z := 4.
Definition CHARACTERS_PER_WORD : number := ofZ 5.
Definition MILLISECONDS_PER_MINUTE : number := ofZ 60000.
Definition STATISTICS_VALIDATION_THRESHOLD_MS : number := ofZ 100.

(** ** Documents *)

(** A [Schema.ObjectId].  Mongoose compares ObjectIds by their hexadecimal
    string ([toHexString]); the [id] virtual of a document is that string. *)
Record ObjectId : Type := { toHexString : string }.

#[global] Instance ObjectId_eq_dec : EqDecision ObjectId.
Proof. solve_decision. Defined.

(** The values that meet in a [===] of the models: [undefined], a string
    primitive, or an ObjectId object. *)
Inductive jsval : Type :=
  | JUndefined
  | JString (s : string)
  | JObjectId (o : ObjectId).

Definition ofObjectId (o : option ObjectId) : jsval :=
  match o with
  | Some x => JObjectId x
  | None => JUndefined
  end.

(** [v === s] for a string primitive [s].  Strict equality converts
    nothing: only a string with the same characters is equal to [s]. *)
Definition strict_eq_string (v : jsval) (s : string) : bool :=
  match v with
  | JString t => bool_decide (t = s)
  | JUndefined | JObjectId _ => false
  end.

(** [a === b] for two Number-typed paths. *)
Definition strict_eq_field (a b : field) : bool :=
  match a, b with
  | None, None => true
  | Some x, Some y => Number.eqb x y
  | _, _ => false
  end.

(** [MongooseArray#remove] (an alias of [pull]): every element equal to
    the argument is taken out, the others keep their order. *)
Definition remove {A : Type} `{EqDecision A} (x : A) (l : list A) : list A :=
  filter (λ y, y ≠ x) l.

Module Exercise.

Record t : Type := mk {
  _id : ObjectId;
  isInitialized : bool;
  lang : string;
  code : string;
  typeableCode : string;
  typeables : field
}.

Definition set_code (v : string) (x : t) : t :=
  {| _id := _id x; isInitialized := isInitialized x; lang := lang x; code := v;
     typeableCode := typeableCode x; typeables := typeables x |}.

End Exercise.

Module Lang.

Record t : Type := mk {
  key : string;
  name : string;
  exercises : list ObjectId
}.

End Lang.

Module Game.

Record t : Type := mk {
  _id : ObjectId;
  isNew : bool;  (* Mongoose: not saved yet *)
  lang : string;
  langName : option string;
  exercise : option ObjectId;
  isSinglePlayer : bool;
  numPlayers : Z;
  maxPlayers : Z;
  status : option string;
  statusText : option string;
  isJoinable : bool;
  isComplete : bool;
  isViewable : bool;
  starting : bool;
  started : bool;
  startTime : option Z;  (* a Date, in milliseconds *)
  creator : option ObjectId;
  winner : option ObjectId;
  winnerTime : field;
  winnerSpeed : field;
  players : list ObjectId;
  playerNames : list string;
  startingPlayers : list ObjectId;
  wasReset : bool
}.

Definition set_isNew (v : bool) (x : t) : t :=
  {| _id := _id x; isNew := v; lang := lang x; langName := langName x; exercise := exercise x;
     isSinglePlayer := isSinglePlayer x; numPlayers := numPlayers x; maxPlayers := maxPlayers x;
     status := status x; statusText := statusText x; isJoinable := isJoinable x; isComplete :=
     isComplete x; isViewable := isViewable x; starting := starting x; started := started x;
     startTime := startTime x; creator := creator x; winner := winner x; winnerTime := winnerTime x;
     winnerSpeed := winnerSpeed x; players := players x; playerNames := playerNames x;
     startingPlayers := startingPlayers x; wasReset := wasReset x |}.

Definition set_lang (v : string) (x : t) : t :=
  {| _id := _id x; isNew := isNew x; lang := v; langName := langName x; exercise := exercise x;
     isSinglePlayer := isSinglePlayer x; numPlayers := numPlayers x; maxPlayers := maxPlayers x;
     status := status x; statusText := statusText x; isJoinable := isJoinable x; isComplete :=
     isComplete x; isViewable := isViewable x; starting := starting x; started := started x;
     startTime := startTime x; creator := creator x; winner := winner x; winnerTime := winnerTime x;
     winnerSpeed := winnerSpeed x; players := players x; playerNames := playerNames x;
     startingPlayers := startingPlayers x; wasReset := wasReset x |}.

Definition set_langName (v : option string) (x : t) : t :=
  {| _id := _id x; isNew := isNew x; lang := lang x; langName := v; exercise := exercise x;
     isSinglePlayer := isSinglePlayer x; numPlayers := numPlayers x; maxPlayers := maxPlayers x;
     status := status x; statusText := statusText x; isJoinable := isJoinable x; isComplete :=
     isComplete x; isViewable := isViewable x; starting := starting x; started := started x;
     startTime := startTime x; creator := creator x; winner := winner x; winnerTime := winnerTime x;
     winnerSpeed := winnerSpeed x; players := players x; playerNames := playerNames x;
     startingPlayers := startingPlayers x; wasReset := wasReset x |}.

Definition set_exercise (v : option ObjectId) (x : t) : t :=
  {| _id := _id x; isNew := isNew x; lang := lang x; langName := langName x; exercise := v;
     isSinglePlayer := isSinglePlayer x; numPlayers := numPlayers x; maxPlayers := maxPlayers x;
     status := status x; statusText := statusText x; isJoinable := isJoinable x; isComplete :=
     isComplete x; isViewable := isViewable x; starting := starting x; started := started x;
     startTime := startTime x; creator := creator x; winner := winner x; winnerTime := winnerTime x;
     winnerSpeed := winnerSpeed x; players := players x; playerNames := playerNames x;
     startingPlayers := startingPlayers x; wasReset := wasReset x |}.

Definition set_isSinglePlayer (v : bool) (x : t) : t :=
  {| _id := _id x; isNew := isNew x; lang := lang x; langName := langName x; exercise := exercise x;
     isSinglePlayer := v; numPlayers := numPlayers x; maxPlayers := maxPlayers x; status := status x;
     statusText := statusText x; isJoinable := isJoinable x; isComplete := isComplete x; isViewable
     := isViewable x; starting := starting x; started := started x; startTime := startTime x; creator
     := creator x; winner := winner x; winnerTime := winnerTime x; winnerSpeed := winnerSpeed x;
     players := players x; playerNames := playerNames x; startingPlayers := startingPlayers x;
     wasReset := wasReset x |}.

Definition set_numPlayers (v : Z) (x : t) : t :=
  {| _id := _id x; isNew := isNew x; lang := lang x; langName := langName x; exercise := exercise x;
     isSinglePlayer := isSinglePlayer x; numPlayers := v; maxPlayers := maxPlayers x; status :=
     status x; statusText := statusText x; isJoinable := isJoinable x; isComplete := isComplete x;
     isViewable := isViewable x; starting := starting x; started := started x; startTime := startTime
     x; creator := creator x; winner := winner x; winnerTime := winnerTime x; winnerSpeed :=
     winnerSpeed x; players := players x; playerNames := playerNames x; startingPlayers :=
     startingPlayers x; wasReset := wasReset x |}.

Definition set_maxPlayers (v : Z) (x : t) : t :=
  {| _id := _id x; isNew := isNew x; lang := lang x; langName := langName x; exercise := exercise x;
     isSinglePlayer := isSinglePlayer x; numPlayers := numPlayers x; maxPlayers := v; status :=
     status x; statusText := statusText x; isJoinable := isJoinable x; isComplete := isComplete x;
     isViewable := isViewable x; starting := starting x; started := started x; startTime := startTime
     x; creator := creator x; winner := winner x; winnerTime := winnerTime x; winnerSpeed :=
     winnerSpeed x; players := players x; playerNames := playerNames x; startingPlayers :=
     startingPlayers x; wasReset := wasReset x |}.

Definition set_status (v : option string) (x : t) : t :=
  {| _id := _id x; isNew := isNew x; lang := lang x; langName := langName x; exercise := exercise x;
     isSinglePlayer := isSinglePlayer x; numPlayers := numPlayers x; maxPlayers := maxPlayers x;
     status := v; statusText := statusText x; isJoinable := isJoinable x; isComplete := isComplete x;
     isViewable := isViewable x; starting := starting x; started := started x; startTime := startTime
     x; creator := creator x; winner := winner x; winnerTime := winnerTime x; winnerSpeed :=
     winnerSpeed x; players := players x; playerNames := playerNames x; startingPlayers :=
     startingPlayers x; wasReset := wasReset x |}.

Definition set_statusText (v : option string) (x : t) : t :=
  {| _id := _id x; isNew := isNew x; lang := lang x; langName := langName x; exercise := exercise x;
     isSinglePlayer := isSinglePlayer x; numPlayers := numPlayers x; maxPlayers := maxPlayers x;
     status := status x; statusText := v; isJoinable := isJoinable x; isComplete := isComplete x;
     isViewable := isViewable x; starting := starting x; started := started x; startTime := startTime
     x; creator := creator x; winner := winner x; winnerTime := winnerTime x; winnerSpeed :=
     winnerSpeed x; players := players x; playerNames := playerNames x; startingPlayers :=
     startingPlayers x; wasReset := wasReset x |}.

Definition set_isJoinable (v : bool) (x : t) : t :=
  {| _id := _id x; isNew := isNew x; lang := lang x; langName := langName x; exercise := exercise x;
     isSinglePlayer := isSinglePlayer x; numPlayers := numPlayers x; maxPlayers := maxPlayers x;
     status := status x; statusText := statusText x; isJoinable := v; isComplete := isComplete x;
     isViewable := isViewable x; starting := starting x; started := started x; startTime := startTime
     x; creator := creator x; winner := winner x; winnerTime := winnerTime x; winnerSpeed :=
     winnerSpeed x; players := players x; playerNames := playerNames x; startingPlayers :=
     startingPlayers x; wasReset := wasReset x |}.

Definition set_isComplete (v : bool) (x : t) : t :=
  {| _id := _id x; isNew := isNew x; lang := lang x; langName := langName x; exercise := exercise x;
     isSinglePlayer := isSinglePlayer x; numPlayers := numPlayers x; maxPlayers := maxPlayers x;
     status := status x; statusText := statusText x; isJoinable := isJoinable x; isComplete := v;
     isViewable := isViewable x; starting := starting x; started := started x; startTime := startTime
     x; creator := creator x; winner := winner x; winnerTime := winnerTime x; winnerSpeed :=
     winnerSpeed x; players := players x; playerNames := playerNames x; startingPlayers :=
     startingPlayers x; wasReset := wasReset x |}.

Definition set_isViewable (v : bool) (x : t) : t :=
  {| _id := _id x; isNew := isNew x; lang := lang x; langName := langName x; exercise := exercise x;
     isSinglePlayer := isSinglePlayer x; numPlayers := numPlayers x; maxPlayers := maxPlayers x;
     status := status x; statusText := statusText x; isJoinable := isJoinable x; isComplete :=
     isComplete x; isViewable := v; starting := starting x; started := started x; startTime :=
     startTime x; creator := creator x; winner := winner x; winnerTime := winnerTime x; winnerSpeed
     := winnerSpeed x; players := players x; playerNames := playerNames x; startingPlayers :=
     startingPlayers x; wasReset := wasReset x |}.

Definition set_starting (v : bool) (x : t) : t :=
  {| _id := _id x; isNew := isNew x; lang := lang x; langName := langName x; exercise := exercise x;
     isSinglePlayer := isSinglePlayer x; numPlayers := numPlayers x; maxPlayers := maxPlayers x;
     status := status x; statusText := statusText x; isJoinable := isJoinable x; isComplete :=
     isComplete x; isViewable := isViewable x; starting := v; started := started x; startTime :=
     startTime x; creator := creator x; winner := winner x; winnerTime := winnerTime x; winnerSpeed
     := winnerSpeed x; players := players x; playerNames := playerNames x; startingPlayers :=
     startingPlayers x; wasReset := wasReset x |}.

Definition set_started (v : bool) (x : t) : t :=
  {| _id := _id x; isNew := isNew x; lang := lang x; langName := langName x; exercise := exercise x;
     isSinglePlayer := isSinglePlayer x; numPlayers := numPlayers x; maxPlayers := maxPlayers x;
     status := status x; statusText := statusText x; isJoinable := isJoinable x; isComplete :=
     isComplete x; isViewable := isViewable x; starting := starting x; started := v; startTime :=
     startTime x; creator := creator x; winner := winner x; winnerTime := winnerTime x; winnerSpeed
     := winnerSpeed x; players := players x; playerNames := playerNames x; startingPlayers :=
     startingPlayers x; wasReset := wasReset x |}.

Definition set_startTime (v : option Z) (x : t) : t :=
  {| _id := _id x; isNew := isNew x; lang := lang x; langName := langName x; exercise := exercise x;
     isSinglePlayer := isSinglePlayer x; numPlayers := numPlayers x; maxPlayers := maxPlayers x;
     status := status x; statusText := statusText x; isJoinable := isJoinable x; isComplete :=
     isComplete x; isViewable := isViewable x; starting := starting x; started := started x;
     startTime := v; creator := creator x; winner := winner x; winnerTime := winnerTime x;
     winnerSpeed := winnerSpeed x; players := players x; playerNames := playerNames x;
     startingPlayers := startingPlayers x; wasReset := wasReset x |}.

Definition set_creator (v : option ObjectId) (x : t) : t :=
  {| _id := _id x; isNew := isNew x; lang := lang x; langName := langName x; exercise := exercise x;
     isSinglePlayer := isSinglePlayer x; numPlayers := numPlayers x; maxPlayers := maxPlayers x;
     status := status x; statusText := statusText x; isJoinable := isJoinable x; isComplete :=
     isComplete x; isViewable := isViewable x; starting := starting x; started := started x;
     startTime := startTime x; creator := v; winner := winner x; winnerTime := winnerTime x;
     winnerSpeed := winnerSpeed x; players := players x; playerNames := playerNames x;
     startingPlayers := startingPlayers x; wasReset := wasReset x |}.

Definition set_winner (v : option ObjectId) (x : t) : t :=
  {| _id := _id x; isNew := isNew x; lang := lang x; langName := langName x; exercise := exercise x;
     isSinglePlayer := isSinglePlayer x; numPlayers := numPlayers x; maxPlayers := maxPlayers x;
     status := status x; statusText := statusText x; isJoinable := isJoinable x; isComplete :=
     isComplete x; isViewable := isViewable x; starting := starting x; started := started x;
     startTime := startTime x; creator := creator x; winner := v; winnerTime := winnerTime x;
     winnerSpeed := winnerSpeed x; players := players x; playerNames := playerNames x;
     startingPlayers := startingPlayers x; wasReset := wasReset x |}.

Definition set_winnerTime (v : field) (x : t) : t :=
  {| _id := _id x; isNew := isNew x; lang := lang x; langName := langName x; exercise := exercise x;
     isSinglePlayer := isSinglePlayer x; numPlayers := numPlayers x; maxPlayers := maxPlayers x;
     status := status x; statusText := statusText x; isJoinable := isJoinable x; isComplete :=
     isComplete x; isViewable := isViewable x; starting := starting x; started := started x;
     startTime := startTime x; creator := creator x; winner := winner x; winnerTime := v; winnerSpeed
     := winnerSpeed x; players := players x; playerNames := playerNames x; startingPlayers :=
     startingPlayers x; wasReset := wasReset x |}.

Definition set_winnerSpeed (v : field) (x : t) : t :=
  {| _id := _id x; isNew := isNew x; lang := lang x; langName := langName x; exercise := exercise x;
     isSinglePlayer := isSinglePlayer x; numPlayers := numPlayers x; maxPlayers := maxPlayers x;
     status := status x; statusText := statusText x; isJoinable := isJoinable x; isComplete :=
     isComplete x; isViewable := isViewable x; starting := starting x; started := started x;
     startTime := startTime x; creator := creator x; winner := winner x; winnerTime := winnerTime x;
     winnerSpeed := v; players := players x; playerNames := playerNames x; startingPlayers :=
     startingPlayers x; wasReset := wasReset x |}.

Definition set_players (v : list ObjectId) (x : t) : t :=
  {| _id := _id x; isNew := isNew x; lang := lang x; langName := langName x; exercise := exercise x;
     isSinglePlayer := isSinglePlayer x; numPlayers := numPlayers x; maxPlayers := maxPlayers x;
     status := status x; statusText := statusText x; isJoinable := isJoinable x; isComplete :=
     isComplete x; isViewable := isViewable x; starting := starting x; started := started x;
     startTime := startTime x; creator := creator x; winner := winner x; winnerTime := winnerTime x;
     winnerSpeed := winnerSpeed x; players := v; playerNames := playerNames x; startingPlayers :=
     startingPlayers x; wasReset := wasReset x |}.

Definition set_playerNames (v : list string) (x : t) : t :=
  {| _id := _id x; isNew := isNew x; lang := lang x; langName := langName x; exercise := exercise x;
     isSinglePlayer := isSinglePlayer x; numPlayers := numPlayers x; maxPlayers := maxPlayers x;
     status := status x; statusText := statusText x; isJoinable := isJoinable x; isComplete :=
     isComplete x; isViewable := isViewable x; starting := starting x; started := started x;
     startTime := startTime x; creator := creator x; winner := winner x; winnerTime := winnerTime x;
     winnerSpeed := winnerSpeed x; players := players x; playerNames := v; startingPlayers :=
     startingPlayers x; wasReset := wasReset x |}.

Definition set_startingPlayers (v : list ObjectId) (x : t) : t :=
  {| _id := _id x; isNew := isNew x; lang := lang x; langName := langName x; exercise := exercise x;
     isSinglePlayer := isSinglePlayer x; numPlayers := numPlayers x; maxPlayers := maxPlayers x;
     status := status x; statusText := statusText x; isJoinable := isJoinable x; isComplete :=
     isComplete x; isViewable := isViewable x; starting := starting x; started := started x;
     startTime := startTime x; creator := creator x; winner := winner x; winnerTime := winnerTime x;
     winnerSpeed := winnerSpeed x; players := players x; playerNames := playerNames x;
     startingPlayers := v; wasReset := wasReset x |}.

Definition set_wasReset (v : bool) (x : t) : t :=
  {| _id := _id x; isNew := isNew x; lang := lang x; langName := langName x; exercise := exercise x;
     isSinglePlayer := isSinglePlayer x; numPlayers := numPlayers x; maxPlayers := maxPlayers x;
     status := status x; statusText := statusText x; isJoinable := isJoinable x; isComplete :=
     isComplete x; isViewable := isViewable x; starting := starting x; started := started x;
     startTime := startTime x; creator := creator x; winner := winner x; winnerTime := winnerTime x;
     winnerSpeed := winnerSpeed x; players := players x; playerNames := playerNames x;
     startingPlayers := startingPlayers x; wasReset := v |}.

(** The [id] virtual. *)
Definition id (x : t) : string := toHexString (_id x).

End Game.

Module User.

(** [ingameArgs] is a Mixed path: [{ game }] for the action [join],
    [{ lang, isSinglePlayer }] for [createnew]. *)
Record IngameArgs : Type := {
  game : option ObjectId;
  lang : option string;
  isSinglePlayer : bool
}.

Record t : Type := mk {
  _id : ObjectId;
  username : string;
  password : option string;
  isAnonymous : bool;
  isAdmin : bool;
  bestTime : field;
  bestSpeed : field;
  averageTime : number;
  averageSpeed : number;
  totalGames : number;
  totalMultiplayerGames : number;
  gamesWon : number;
  isAllowedIngame : bool;
  ingameAction : option string;
  ingameArgs : IngameArgs;
  currentGame : option ObjectId
}.

Definition set_bestTime (v : field) (x : t) : t :=
  {| _id := _id x; username := username x; password := password x; isAnonymous := isAnonymous x;
     isAdmin := isAdmin x; bestTime := v; bestSpeed := bestSpeed x; averageTime := averageTime x;
     averageSpeed := averageSpeed x; totalGames := totalGames x; totalMultiplayerGames :=
     totalMultiplayerGames x; gamesWon := gamesWon x; isAllowedIngame := isAllowedIngame x;
     ingameAction := ingameAction x; ingameArgs := ingameArgs x; currentGame := currentGame x |}.

Definition set_bestSpeed (v : field) (x : t) : t :=
  {| _id := _id x; username := username x; password := password x; isAnonymous := isAnonymous x;
     isAdmin := isAdmin x; bestTime := bestTime x; bestSpeed := v; averageTime := averageTime x;
     averageSpeed := averageSpeed x; totalGames := totalGames x; totalMultiplayerGames :=
     totalMultiplayerGames x; gamesWon := gamesWon x; isAllowedIngame := isAllowedIngame x;
     ingameAction := ingameAction x; ingameArgs := ingameArgs x; currentGame := currentGame x |}.

Definition set_averageTime (v : number) (x : t) : t :=
  {| _id := _id x; username := username x; password := password x; isAnonymous := isAnonymous x;
     isAdmin := isAdmin x; bestTime := bestTime x; bestSpeed := bestSpeed x; averageTime := v;
     averageSpeed := averageSpeed x; totalGames := totalGames x; totalMultiplayerGames :=
     totalMultiplayerGames x; gamesWon := gamesWon x; isAllowedIngame := isAllowedIngame x;
     ingameAction := ingameAction x; ingameArgs := ingameArgs x; currentGame := currentGame x |}.

Definition set_averageSpeed (v : number) (x : t) : t :=
  {| _id := _id x; username := username x; password := password x; isAnonymous := isAnonymous x;
     isAdmin := isAdmin x; bestTime := bestTime x; bestSpeed := bestSpeed x; averageTime :=
     averageTime x; averageSpeed := v; totalGames := totalGames x; totalMultiplayerGames :=
     totalMultiplayerGames x; gamesWon := gamesWon x; isAllowedIngame := isAllowedIngame x;
     ingameAction := ingameAction x; ingameArgs := ingameArgs x; currentGame := currentGame x |}.

Definition set_totalGames (v : number) (x : t) : t :=
  {| _id := _id x; username := username x; password := password x; isAnonymous := isAnonymous x;
     isAdmin := isAdmin x; bestTime := bestTime x; bestSpeed := bestSpeed x; averageTime :=
     averageTime x; averageSpeed := averageSpeed x; totalGames := v; totalMultiplayerGames :=
     totalMultiplayerGames x; gamesWon := gamesWon x; isAllowedIngame := isAllowedIngame x;
     ingameAction := ingameAction x; ingameArgs := ingameArgs x; currentGame := currentGame x |}.

Definition set_totalMultiplayerGames (v : number) (x : t) : t :=
  {| _id := _id x; username := username x; password := password x; isAnonymous := isAnonymous x;
     isAdmin := isAdmin x; bestTime := bestTime x; bestSpeed := bestSpeed x; averageTime :=
     averageTime x; averageSpeed := averageSpeed x; totalGames := totalGames x; totalMultiplayerGames
     := v; gamesWon := gamesWon x; isAllowedIngame := isAllowedIngame x; ingameAction := ingameAction
     x; ingameArgs := ingameArgs x; currentGame := currentGame x |}.

Definition set_gamesWon (v : number) (x : t) : t :=
  {| _id := _id x; username := username x; password := password x; isAnonymous := isAnonymous x;
     isAdmin := isAdmin x; bestTime := bestTime x; bestSpeed := bestSpeed x; averageTime :=
     averageTime x; averageSpeed := averageSpeed x; totalGames := totalGames x; totalMultiplayerGames
     := totalMultiplayerGames x; gamesWon := v; isAllowedIngame := isAllowedIngame x; ingameAction :=
     ingameAction x; ingameArgs := ingameArgs x; currentGame := currentGame x |}.

Definition set_isAllowedIngame (v : bool) (x : t) : t :=
  {| _id := _id x; username := username x; password := password x; isAnonymous := isAnonymous x;
     isAdmin := isAdmin x; bestTime := bestTime x; bestSpeed := bestSpeed x; averageTime :=
     averageTime x; averageSpeed := averageSpeed x; totalGames := totalGames x; totalMultiplayerGames
     := totalMultiplayerGames x; gamesWon := gamesWon x; isAllowedIngame := v; ingameAction :=
     ingameAction x; ingameArgs := ingameArgs x; currentGame := currentGame x |}.

Definition set_ingameAction (v : option string) (x : t) : t :=
  {| _id := _id x; username := username x; password := password x; isAnonymous := isAnonymous x;
     isAdmin := isAdmin x; bestTime := bestTime x; bestSpeed := bestSpeed x; averageTime :=
     averageTime x; averageSpeed := averageSpeed x; totalGames := totalGames x; totalMultiplayerGames
     := totalMultiplayerGames x; gamesWon := gamesWon x; isAllowedIngame := isAllowedIngame x;
     ingameAction := v; ingameArgs := ingameArgs x; currentGame := currentGame x |}.

Definition set_ingameArgs (v : IngameArgs) (x : t) : t :=
  {| _id := _id x; username := username x; password := password x; isAnonymous := isAnonymous x;
     isAdmin := isAdmin x; bestTime := bestTime x; bestSpeed := bestSpeed x; averageTime :=
     averageTime x; averageSpeed := averageSpeed x; totalGames := totalGames x; totalMultiplayerGames
     := totalMultiplayerGames x; gamesWon := gamesWon x; isAllowedIngame := isAllowedIngame x;
     ingameAction := ingameAction x; ingameArgs := v; currentGame := currentGame x |}.

Definition set_currentGame (v : option ObjectId) (x : t) : t :=
  {| _id := _id x; username := username x; password := password x; isAnonymous := isAnonymous x;
     isAdmin := isAdmin x; bestTime := bestTime x; bestSpeed := bestSpeed x; averageTime :=
     averageTime x; averageSpeed := averageSpeed x; totalGames := totalGames x; totalMultiplayerGames
     := totalMultiplayerGames x; gamesWon := gamesWon x; isAllowedIngame := isAllowedIngame x;
     ingameAction := ingameAction x; ingameArgs := ingameArgs x; currentGame := v |}.

Definition id (x : t) : string := toHexString (_id x).

End User.

Module Stats.

Record t : Type := mk {
  player : ObjectId;
  game : ObjectId;
  time : field;
  speed : field;
  typeables : field;
  keystrokes : field;
  percentUnproductive : field;
  mistakes : field
}.

Definition set_time (v : field) (x : t) : t :=
  {| player := player x; game := game x; time := v; speed := speed x; typeables := typeables x;
     keystrokes := keystrokes x; percentUnproductive := percentUnproductive x; mistakes := mistakes x |}.

Definition set_speed (v : field) (x : t) : t :=
  {| player := player x; game := game x; time := time x; speed := v; typeables := typeables x;
     keystrokes := keystrokes x; percentUnproductive := percentUnproductive x; mistakes := mistakes x |}.

Definition set_typeables (v : field) (x : t) : t :=
  {| player := player x; game := game x; time := time x; speed := speed x; typeables := v; keystrokes
     := keystrokes x; percentUnproductive := percentUnproductive x; mistakes := mistakes x |}.

Definition set_percentUnproductive (v : field) (x : t) : t :=
  {| player := player x; game := game x; time := time x; speed := speed x; typeables := typeables x;
     keystrokes := keystrokes x; percentUnproductive := v; mistakes := mistakes x |}.
End Stats.

(** ** The world around the documents *)

(** A pending entry of [gameTimeouts]: the delay handed to [setTimeout]
    and which of the two callbacks of [setupTiming] it will run. *)
Inductive TimeoutAction : Type :=
  | CloseJoining  (* game.isJoinable = false; game.updateGameState() *)
  | StartGame.    (* game.start(); game.updateGameState() *)

Record Timeout : Type := { delay : Z; action : TimeoutAction }.

(** What [enet.emit] was called with. *)
Inductive Event : Type :=
  | UsersUpdate (u : User.t)
  | GamesNew (g : Game.t)
  | GamesRemove (g : Game.t)
  | GamesUpdate (g : Game.t).

(** The error, if any, the driver reports for each kind of operation. *)
Record Faults : Type := {
  findUser : option string;
  findGame : option string;
  findExercise : option string;
  findLang : option string;
  saveUser : option string;
  saveGame : option string;
  saveStats : option string
}.

Definition no_faults : Faults :=
  {| findUser := None; findGame := None; findExercise := None;
     findLang := None; saveUser := None; saveGame := None; saveStats := None |}.

Record World : Type := {
  users : gmap string User.t;          (* collection, by hexadecimal _id *)
  games : gmap string Game.t;
  exercises : gmap string Exercise.t;
  langs : gmap string Lang.t;          (* by key *)
  statistics : list Stats.t;           (* saved results, latest first *)
  gameTimeouts : gmap string Timeout;  (* by game id *)
  emitted : list Event;                (* latest first *)
  logged : list string;                (* util.log, latest first *)
  faults : Faults;
  now : Z;                             (* moment(), in milliseconds *)
  lag : Z;                             (* what passes until the next moment() *)
  isModified : Game.t → bool;          (* Mongoose's change tracking *)
  freshId : ObjectId;                  (* the _id of the next new Game() *)
  randomIndex : nat                    (* Math.floor(Math.random() * n) *)
}.

Definition set_users (v : gmap string User.t) (w : World) : World :=
  {| users := v; games := games w; exercises := exercises w; langs := langs w;
     statistics := statistics w; gameTimeouts := gameTimeouts w; emitted := emitted w;
     logged := logged w; faults := faults w; now := now w; lag := lag w;
     isModified := isModified w;
     freshId := freshId w; randomIndex := randomIndex w |}.

Definition set_games (v : gmap string Game.t) (w : World) : World :=
  {| users := users w; games := v; exercises := exercises w; langs := langs w;
     statistics := statistics w; gameTimeouts := gameTimeouts w; emitted := emitted w;
     logged := logged w; faults := faults w; now := now w; lag := lag w;
     isModified := isModified w;
     freshId := freshId w; randomIndex := randomIndex w |}.

Definition set_statistics (v : list Stats.t) (w : World) : World :=
  {| users := users w; games := games w; exercises := exercises w; langs := langs w;
     statistics := v; gameTimeouts := gameTimeouts w; emitted := emitted w;
     logged := logged w; faults := faults w; now := now w; lag := lag w;
     isModified := isModified w;
     freshId := freshId w; randomIndex := randomIndex w |}.

Definition set_gameTimeouts (v : gmap string Timeout) (w : World) : World :=
  {| users := users w; games := games w; exercises := exercises w; langs := langs w;
     statistics := statistics w; gameTimeouts := v; emitted := emitted w;
     logged := logged w; faults := faults w; now := now w; lag := lag w;
     isModified := isModified w;
     freshId := freshId w; randomIndex := randomIndex w |}.

Definition set_emitted (v : list Event) (w : World) : World :=
  {| users := users w; games := games w; exercises := exercises w; langs := langs w;
     statistics := statistics w; gameTimeouts := gameTimeouts w; emitted := v;
     logged := logged w; faults := faults w; now := now w; lag := lag w;
     isModified := isModified w;
     freshId := freshId w; randomIndex := randomIndex w |}.

Definition set_logged (v : list string) (w : World) : World :=
  {| users := users w; games := games w; exercises := exercises w; langs := langs w;
     statistics := statistics w; gameTimeouts := gameTimeouts w; emitted := emitted w;
     logged := v; faults := faults w; now := now w; lag := lag w;
     isModified := isModified w;
     freshId := freshId w; randomIndex := randomIndex w |}.

Definition set_now (v : Z) (w : World) : World :=
  {| users := users w; games := games w; exercises := exercises w; langs := langs w;
     statistics := statistics w; gameTimeouts := gameTimeouts w; emitted := emitted w;
     logged := logged w; faults := faults w; now := v; lag := lag w;
     isModified := isModified w;
     freshId := freshId w; randomIndex := randomIndex w |}.

(** [moment()] where another read of the clock follows in the same run:
    the instant read, and the world in which the clock has moved on. *)
Definition moment (w : World) : Z * World := (now w, set_now (now w + lag w) w).

Definition emit (e : Event) (w : World) : World := set_emitted (e :: emitted w) w.
Definition log (s : string) (w : World) : World := set_logged (s :: logged w) w.

(** How a callback-taking method ends. *)
Inductive Outcome (A : Type) : Type :=
  | Ok (a : A)          (* callback(null, ...) *)
  | Fail (err : string) (* callback(err, ...) with an error *)
  | NoCallback          (* the chain ended and the callback was never invoked *)
  | Threw (e : string). (* an uncaught TypeError *)

Arguments Ok {A} a.
Arguments Fail {A} err.
Arguments NoCallback {A}.
Arguments Threw {A} e.

(** How a function that takes no callback ends. *)
Inductive Completion : Type :=
  | Returned
  | Uncaught (e : string).

(** [Model.findById(id, function(err, doc) ...)]: the pair handed to the
    callback. A failing driver gives an error and no document; a missing
    document is [null] without an error. *)
Definition findById {A : Type} (fault : option string) (coll : gmap string A)
    (i : option string) : option string * option A :=
  match fault with
  | Some e => (Some e, None)
  | None => (None, i ≫= λ k, coll !! k)
  end.

(** ** [gameTimeouts] *)

Module gameTimeouts.

(** [create(g, t, f)]: a pending timeout of [g] is cleared and replaced. *)
Definition create (g : string) (t : Z) (f : TimeoutAction) (w : World) : World :=
  set_gameTimeouts (<[g := {| delay := t; action := f |}]> (gameTimeouts w)) w.

(** [remove(g)]: clears and forgets the pending timeout of [g], if any. *)
Definition remove (g : string) (w : World) : World :=
  set_gameTimeouts (delete g (gameTimeouts w)) w.

End gameTimeouts.

(** ** GameSchema.methods *)

Module GameSchema.

Import Game.

Definition bindings (status : string) : option string :=
  if decide (status = "waiting") then Some "Waiting"
  else if decide (status = "ingame") then Some "In game"
  else None.

Definition setStatus (status : string) (game : Game.t) : Game.t :=
  set_statusText (bindings status) (set_status (Some status) game).

Definition beginSinglePlayer (game : Game.t) : Game.t :=
  set_maxPlayers 1
    (set_isComplete false
      (set_isViewable false
        (set_isJoinable false (setStatus "waiting" game)))).

Definition beginMultiPlayer (game : Game.t) : Game.t :=
  set_isSinglePlayer false
    (set_isComplete false
      (set_isViewable true
        (set_isJoinable true (setStatus "waiting" game)))).

Definition start (game : Game.t) : Game.t :=
  set_isJoinable false
    (setStatus "ingame"
      (set_startingPlayers (players game) (set_started true game))).

Definition finish (game : Game.t) (w : World) : Game.t * World :=
  (set_isJoinable false (set_isViewable false (set_isComplete true game)),
   gameTimeouts.remove (id game) w).

(** [moment(game.startTime).diff(moment())]; [moment(undefined)] is the
    current instant. *)
Definition timeLeft (game : Game.t) (w : World) : Z :=
  match startTime game with
  | Some s => s - now w
  | None => 0
  end.

Definition setupTiming (game : Game.t) (w : World) : Game.t * World :=
  let timeLeft := timeLeft game w in
  if isJoinable game then
    if bool_decide (timeLeft > GAME_TIME_JOIN_CUTOFF_MS) then
      (game,
       gameTimeouts.create (id game) (timeLeft - GAME_TIME_JOIN_CUTOFF_MS + 1)
         CloseJoining w)
    else (set_isJoinable false game, w)
  else
    if bool_decide (timeLeft > 0) then
      (game, gameTimeouts.create (id game) (timeLeft + 1) StartGame w)
    else (start game, w).

Definition deduceGameStateSinglePlayer (game : Game.t) (w : World) : Game.t * World :=
  if negb (started game) then
    let '(game, w) :=
      if negb (starting game) then
        let '(t, w) := moment w in
        (set_startTime (Some (t + GAME_SINGLE_PLAYER_WAIT_TIME * 1000))
           (set_starting true game), w)
      else (game, w) in
    setupTiming game w
  else (game, w).

Definition deduceGameStateMultiPlayer (game : Game.t) (w : World) : Game.t * World :=
  if negb (started game) then
    if starting game then
      (* Starting interrupt condition *)
      if bool_decide (numPlayers game < 2) then
        (set_isJoinable true (set_startTime None (set_starting false game)),
         gameTimeouts.remove (id game) w)
      else setupTiming game w
    else
      if bool_decide (numPlayers game > 1) then
        let '(t, w) := moment w in
        setupTiming
          (set_startTime (Some (t + GAME_MULTI_PLAYER_WAIT_TIME * 1000))
            (set_starting true game)) w
      else (game, w)
  else (game, w).

Definition deduceGameState (game : Game.t) (w : World) : Game.t * World :=
  if bool_decide (numPlayers game = 0) then finish game w
  else
    let game :=
      if bool_decide (numPlayers game = maxPlayers game) then set_isJoinable false game
      else game in
    if isSinglePlayer game then deduceGameStateSinglePlayer game w
    else deduceGameStateMultiPlayer game w.

(** A successful [game.save]: the document stops being new and replaces
    the stored one. *)
Definition save (game : Game.t) (w : World) : Game.t * World :=
  let game := set_isNew false game in
  (game, set_games (<[id game := game]> (games w)) w).

(** [updateGameState(callback)]: the outcome of the callback, the document
    as the method leaves it, and the world. *)
Definition updateGameState (game : Game.t) (w : World)
    : Outcome Game.t * Game.t * World :=
  let '(game, w) := deduceGameState game w in
  let wasNew := isNew game in
  let wasModified := isModified w game in
  match saveGame (faults w) with
  | Some err => (Fail "error saving user", game, log err w)
  | None =>
      let '(game, w) := save game w in
      let w :=
        if wasNew then emit (GamesNew game) w
        else if isComplete game then emit (GamesRemove game) w
        else if wasModified then emit (GamesUpdate game) w
        else w in
      (Ok game, game, w)
  end.

(** The callbacks [setupTiming] hands to [gameTimeouts.create].  Each
    fetches the game again by id and uses the document it gets without
    testing it: on [null] the assignment or the method call throws. *)
Definition runTimeout (f : TimeoutAction) (g : string) (w : World) : Completion * World :=
  let '(err, game) := findById (findGame (faults w)) (games w) (Some g) in
  let w := match err with Some e => log e w | None => w end in
  match game with
  | None =>
      (Uncaught match f with
                | CloseJoining => "TypeError: Cannot set property 'isJoinable' of null"
                | StartGame => "TypeError: Cannot call method 'start' of null"
                end, w)
  | Some game =>
      let game :=
        match f with
        | CloseJoining => set_isJoinable false game
        | StartGame => start game
        end in
      let '(_, _, w) := updateGameState game w in
      (Returned, w)
  end.

(** The function [gameTimeouts.create] hands to [setTimeout], run when the
    delay of the pending timeout of [g] has elapsed: the entry is deleted,
    then its callback runs. *)
Definition fire (g : string) (w : World) : Completion * World :=
  match gameTimeouts w !! g with
  | None => (Returned, w)
  | Some t => runTimeout (action t) g (gameTimeouts.remove g w)
  end.

Definition AlreadyInGame : string := "you are already inside another game!".
Definition LobbyUnavailable : string := "this game is full, or has been removed".

Definition getJoinError (game : Game.t) (player : User.t) : option string :=
  if negb (isJoinable game) && negb (isSinglePlayer game) then Some LobbyUnavailable
  else
    let playerIds := map toHexString (players game) in
    if bool_decide (User.id player ∈ playerIds) then Some AlreadyInGame
    else None.

Definition addPlayer (player : User.t) (game : Game.t) (w : World)
    : Outcome Game.t * Game.t * World :=
  let game := set_players (players game ++ [User._id player]) game in
  let game := set_playerNames (playerNames game ++ [User.username player]) game in
  let game := set_numPlayers (numPlayers game + 1) game in
  updateGameState game w.

Definition removePlayer (player : User.t) (game : Game.t) (w : World)
    : Outcome Game.t * Game.t * World :=
  let game := set_players (remove (User._id player) (players game)) game in
  let game := set_playerNames (remove (User.username player) (playerNames game)) game in
  let game :=
    set_numPlayers (if bool_decide (numPlayers game ≤ 0) then 0 else numPlayers game - 1)
      game in
  updateGameState game w.

(** [updateStatistics(stats, callback)]. *)
Definition updateStatistics (stats : Stats.t) (game : Game.t) (w : World)
    : Outcome Game.t * Game.t * World :=
  if negb (strict_eq_field (winnerTime game) (Stats.time stats))
     && strict_eq_field
          (Some (Number.min (or_else (winnerTime game) PosInf)
                            (or_else (Stats.time stats) PosInf)))
          (Stats.time stats)
  then
    let game := set_winner (Some (Stats.player stats)) game in
    let game := set_winnerTime (Stats.time stats) game in
    let game := set_winnerSpeed (Stats.speed stats) game in
    match saveGame (faults w) with
    | Some err => (Fail "error saving game", game, log err w)
    | None => let '(game, w) := save game w in (Ok game, game, w)
    end
  else (Ok game, game, w).

(** What [resetIncomplete] writes on a game that matches its query. *)
Definition reset (game : Game.t) : Game.t :=
  set_isJoinable false
    (set_players []
      (set_numPlayers 0
        (set_isViewable false (set_isComplete true (set_wasReset true game))))).

(** [GameSchema.statics.resetIncomplete]: a multi-update of every game
    with [isComplete: false] or [isViewable: true].  [err] is what the
    driver reports; a failed update is taken to have written nothing. *)
Definition resetIncomplete (err : option string) (w : World) : World :=
  let w :=
    match err with
    | Some e => log e w
    | None =>
        set_games
          ((λ game, if negb (isComplete game) || isViewable game then reset game else game)
             <$> games w) w
    end in
  log "games reset" w.

End GameSchema.

(** ** UserSchema.methods *)

Module UserSchema.

Import User.

(** [joinGame(game, callback)] for a game document: the outcome, the user
    and the game as the method leaves them in memory, and the world. *)
Definition joinGame (game : Game.t) (user : User.t) (w : World)
    : Outcome Game.t * User.t * Game.t * World :=
  match GameSchema.getJoinError game user with
  | Some error => (Fail error, user, game, w)
  | None =>
      let user := set_currentGame (Some (Game._id game)) user in
      match GameSchema.addPlayer user game w with
      | (Ok game', game, w) =>
          match saveUser (faults w) with
          | Some err => (Fail "error saving user", user, game, log err w)
          | None =>
              let w := set_users (<[id user := user]> (users w)) w in
              (Ok game, user, game, emit (UsersUpdate user) w)
          end
      | (Fail err, game, w) => (Fail "error joining game", user, game, log err w)
      | (NoCallback, game, w) => (NoCallback, user, game, w)
      | (Threw e, game, w) => (Threw e, user, game, w)
      end
  end.

(** The options [createGame] copies onto the new game with [_.extend]. *)
Record Opts : Type := {
  opt_lang : string;
  opt_langName : option string;
  opt_exercise : option ObjectId;
  opt_isSinglePlayer : bool
}.

(** [new Game()]: the defaults of the schema. *)
Definition newGame (i : ObjectId) : Game.t :=
  {| Game._id := i; Game.isNew := true; Game.lang := ""; Game.langName := None;
     Game.exercise := None; Game.isSinglePlayer := false; Game.numPlayers := 0;
     Game.maxPlayers := GAME_DEFAULT_MAX_PLAYERS; Game.status := None;
     Game.statusText := None; Game.isJoinable := true; Game.isComplete := false;
     Game.isViewable := true; Game.starting := false; Game.started := false;
     Game.startTime := None; Game.creator := None; Game.winner := None;
     Game.winnerTime := None; Game.winnerSpeed := None; Game.players := [];
     Game.playerNames := []; Game.startingPlayers := []; Game.wasReset := false |}.

Definition extend (opts : Opts) (game : Game.t) : Game.t :=
  Game.set_isSinglePlayer (opt_isSinglePlayer opts)
    (Game.set_exercise (opt_exercise opts)
      (Game.set_langName (opt_langName opts) (Game.set_lang (opt_lang opts) game))).

Definition createGame (opts : Opts) (user : User.t) (w : World)
    : Outcome Game.t * User.t * World :=
  (* User cannot create a game when he is already in one *)
  if bool_decide (is_Some (currentGame user)) then
    (Fail GameSchema.AlreadyInGame, user, w)
  else
    let game := extend opts (newGame (freshId w)) in
    let game := Game.set_creator (Some (_id user)) game in
    let game :=
      if Game.isSinglePlayer game then GameSchema.beginSinglePlayer game
      else GameSchema.beginMultiPlayer game in
    let '(r, user, _, w) := joinGame game user w in
    (r, user, w).

(** [quitCurrentGame(callback)]: [Ok None] is [callback()], [Ok (Some game)]
    is [callback(null, game)]. *)
Definition quitCurrentGame (user : User.t) (w : World)
    : Outcome (option Game.t) * User.t * World :=
  match currentGame user with
  | Some g =>
      match findById (findGame (faults w)) (games w) (Some (toHexString g)) with
      | (Some err, _) => (Fail "error retrieving game", user, log err w)
      | (None, Some game) =>
          match GameSchema.removePlayer user game w with
          | (Ok _, game, w) =>
              let user := set_currentGame None user in
              match saveUser (faults w) with
              | Some err => (Fail "error saving user", user, log err w)
              | None =>
                  (Ok (Some game), user, set_users (<[id user := user]> (users w)) w)
              end
          | (Fail err, _, w) => (Fail err, user, log err w)
          | (NoCallback, _, w) => (NoCallback, user, w)
          | (Threw e, _, w) => (Threw e, user, w)
          end
      | (None, None) => (NoCallback, user, w)
      end
  | None => (Ok None, user, w)
  end.

(** [performIngameAction(callback)].  In the [join] branch the document
    found is passed to [joinGame] as it is; when it is [null] the first
    statement of [joinGame], [game.getJoinError(user)], throws. *)
Definition performIngameAction (user : User.t) (w : World)
    : Outcome Game.t * User.t * World :=
  if bool_decide (ingameAction user = Some "join") then
    match findById (findGame (faults w)) (games w)
            (toHexString <$> game (ingameArgs user)) with
    | (Some err, _) => (Fail err, user, log "games:join error" (log err w))
    | (None, Some game) =>
        let '(r, user, _, w) := joinGame game user w in (r, user, w)
    | (None, None) =>
        (Threw "TypeError: Cannot call method 'getJoinError' of null", user, w)
    end
  else if bool_decide (ingameAction user = Some "createnew") then
    let key := default "undefined" (lang (ingameArgs user)) in
    match snd (findById (findLang (faults w)) (langs w) (lang (ingameArgs user))) with
    | Some lang =>
        createGame
          {| opt_lang := Lang.key lang;
             opt_langName := Some (Lang.name lang);
             opt_exercise := Lang.exercises lang !! randomIndex w;
             opt_isSinglePlayer := isSinglePlayer (ingameArgs user) |}
          user w
    | None =>
        (Fail ("No such game type: " +:+ key), user,
         log ("No such game type: " +:+ key) w)
    end
  else
    (Fail ("No such action type: " +:+ default "undefined" (ingameAction user)), user, w).

(** [updateStatistics(stats, game, callback)]. *)
Definition updateStatistics (stats : Stats.t) (game : Game.t) (user : User.t) (w : World)
    : Outcome User.t * User.t * World :=
  let user :=
    set_bestTime
      (Some (Number.min (or_else (bestTime user) PosInf)
                        (or_else (Stats.time stats) PosInf))) user in
  let user :=
    set_bestSpeed
      (Some (Number.max (or_else (bestSpeed user) (ofZ 0))
                        (or_else (Stats.speed stats) (ofZ 0)))) user in
  let user := set_totalGames (add (totalGames user) (ofZ 1)) user in
  let user :=
    if negb (Game.isSinglePlayer game) then
      set_totalMultiplayerGames (add (totalMultiplayerGames user) (ofZ 1)) user
    else user in
  let user :=
    if strict_eq_string (ofObjectId (Game.winner game)) (id user) then
      set_gamesWon (add (gamesWon user) (ofZ 1)) user
    else user in
  let user :=
    set_averageTime
      (div (add (mul (averageTime user) (sub (totalGames user) (ofZ 1)))
                (toNumber (Stats.time stats)))
           (totalGames user)) user in
  let user :=
    set_averageSpeed
      (div (add (mul (averageSpeed user) (sub (totalGames user) (ofZ 1)))
                (toNumber (Stats.speed stats)))
           (totalGames user)) user in
  match saveUser (faults w) with
  | Some err => (Fail "error saving user", user, log err w)
  | None => (Ok user, user, set_users (<[id user := user]> (users w)) w)
  end.

(** [prepareIngameAction(action, args, callback)]; [user.save(callback)]
    hands the driver's error to the callback as it is. *)
Definition prepareIngameAction (action : string) (args : IngameArgs) (user : User.t)
    (w : World) : Outcome User.t * User.t * World :=
  let user := set_isAllowedIngame true user in
  let user := set_ingameAction (Some action) user in
  let user := set_ingameArgs args user in
  match saveUser (faults w) with
  | Some err => (Fail err, user, w)
  | None => (Ok user, user, set_users (<[id user := user]> (users w)) w)
  end.

(** [UserSchema.statics.resetCurrentGames]: [$unset] of [currentGame] on
    every user that has one.  [err] is what the driver reports; a failed
    update is taken to have written nothing. *)
Definition resetCurrentGames (err : option string) (w : World) : World :=
  let w :=
    match err with
    | Some e => log e w
    | None =>
        set_users
          ((λ user, if bool_decide (is_Some (currentGame user))
                    then set_currentGame None user else user) <$> users w) w
    end in
  log "users reset" w.

(** [UserSchema.statics.resetAnonymous]: removes every anonymous user. *)
Definition resetAnonymous (err : option string) (w : World) : World :=
  let w :=
    match err with
    | Some e => log e w
    | None => set_users (filter (λ kv, isAnonymous kv.2 = false) (users w)) w
    end in
  log "anonymous reset" w.

(** The module variable [anonymousId] is passed in and out, as an
    integer: a Number counts exactly below 2^53.  [setupAnonymous] draws
    it from [random], the value of [Math.random()]; the product is taken
    exactly, not rounded to a double. *)
Definition setupAnonymous (random : Qc) : Z :=
  Qfloor (random * Q2Qc (inject_Z (ANONYMOUS_ID_MAX - ANONYMOUS_ID_MIN)))%Qc
  + ANONYMOUS_ID_MIN.

(** [generateAnonymousUsername]: the incremented counter and the name;
    an integer converts to its decimal digits. *)
Definition generateAnonymousUsername (anonymousId : Z) : Z * string :=
  let anonymousId := anonymousId + 1 in
  (anonymousId, "player" +:+ pretty anonymousId).

End UserSchema.

(** ** LangSchema.methods and ExerciseSchema.methods *)

Module LangSchema.

(** [randomExercise]: [random] is the value of [Math.random()], the
    product is taken exactly; an index outside the array reads
    [undefined]. *)
Definition randomExercise (random : Qc) (lang : Lang.t) : option ObjectId :=
  Lang.exercises lang
  !! Z.to_nat (Qfloor (random * Q2Qc (inject_Z (Z.of_nat (length (Lang.exercises lang)))))%Qc).

End LangSchema.

Module ExerciseSchema.

Definition CR : Ascii.ascii := "013"%char.
Definition LF : Ascii.ascii := "010"%char.
Definition TAB : Ascii.ascii := "009"%char.

(** [s.replace(/\r\n|\n\r|\r|\n/g, '\n')]: scanning from the left,
    at each position the first alternative that matches is replaced.
    The code is read as its UTF-8 bytes; the bytes of CR, LF and TAB
    occur in no other character's encoding. *)
Fixpoint replaceNewlines (s : string) : string :=
  match s with
  | String.EmptyString => String.EmptyString
  | String.String c rest =>
      if decide (c = CR) then
        match rest with
        | String.String d rest' =>
            if decide (d = LF) then String.String LF (replaceNewlines rest')
            else String.String LF (replaceNewlines rest)
        | String.EmptyString => String.String LF String.EmptyString
        end
      else if decide (c = LF) then
        match rest with
        | String.String d rest' =>
            if decide (d = CR) then String.String LF (replaceNewlines rest')
            else String.String LF (replaceNewlines rest)
        | String.EmptyString => String.String LF String.EmptyString
        end
      else String.String c (replaceNewlines rest)
  end.

(** [s.replace(/\t/g, '    ')]. *)
Fixpoint replaceTabs (s : string) : string :=
  match s with
  | String.EmptyString => String.EmptyString
  | String.String c rest =>
      if decide (c = TAB) then "    " +:+ replaceTabs rest
      else String.String c (replaceTabs rest)
  end.

Definition normalizeNewlines (exercise : Exercise.t) : Exercise.t :=
  Exercise.set_code (replaceNewlines (Exercise.code exercise)) exercise.

Definition tabsToSpaces (exercise : Exercise.t) : Exercise.t :=
  Exercise.set_code (replaceTabs (Exercise.code exercise)) exercise.

End ExerciseSchema.

(** ** StatsSchema.methods *)

Module StatsSchema.

Import Stats.

(** [moment().diff(game.startTime, 'milliseconds')]. *)
Definition realTime (game : Game.t) (w : World) : number :=
  match Game.startTime game with
  | Some s => ofZ (now w - s)
  | None => ofZ 0
  end.

(** The synchronous part of [updateStatistics] that fills in the result:
    the clamp of [time], then [typeables], [speed] and
    [percentUnproductive]. *)
Definition finalize (exercise : Exercise.t) (game : Game.t) (stats : Stats.t) (w : World)
    : Stats.t :=
  (* Clamp input to the real time difference, if it is beyond a threshold *)
  let realTime := realTime game w in
  let stats :=
    if gtb (abs (sub realTime (toNumber (time stats)))) STATISTICS_VALIDATION_THRESHOLD_MS
    then set_time (Some realTime) stats
    else stats in
  let stats := set_typeables (Exercise.typeables exercise) stats in
  let stats :=
    set_speed
      (Some (mul (div (toNumber (typeables stats)) CHARACTERS_PER_WORD)
                 (div (ofZ 1) (div (toNumber (time stats)) MILLISECONDS_PER_MINUTE))))
      stats in
  set_percentUnproductive
    (Some (sub (ofZ 1) (div (toNumber (typeables stats)) (toNumber (keystrokes stats)))))
    stats.

(** [stats.save(function(err) { if (err) util.log(err); })]. *)
Definition save (stats : Stats.t) (w : World) : World :=
  match saveStats (faults w) with
  | Some err => log err w
  | None => set_statistics (stats :: statistics w) w
  end.

(** [updateStatistics(callback)]; on success the callback receives the
    result, the user and the game. *)
Definition updateStatistics (stats : Stats.t) (w : World)
    : Outcome (Stats.t * User.t * Game.t) * World :=
  match findById (findUser (faults w)) (users w) (Some (toHexString (player stats))) with
  | (Some err, _) => (Fail err, log err w)
  | (None, user) =>
      match findById (findGame (faults w)) (games w) (Some (toHexString (game stats))) with
      | (Some err, _) => (Fail err, log err w)
      | (None, None) => (NoCallback, w)
      | (None, Some game) =>
          match findById (findExercise (faults w)) (exercises w)
                  (toHexString <$> Game.exercise game) with
          | (Some err, _) => (Fail err, log err w)
          | (None, None) =>
              (Threw "TypeError: Cannot read property 'typeables' of null", w)
          | (None, Some exercise) =>
              let stats := finalize exercise game stats w in
              let w := save stats w in
              match GameSchema.updateStatistics stats game w with
              | (Ok _, game, w) =>
                  match user with
                  | None =>
                      (Threw "TypeError: Cannot call method 'updateStatistics' of null", w)
                  | Some user =>
                      match UserSchema.updateStatistics stats game user w with
                      | (Ok _, user, w) => (Ok (stats, user, game), w)
                      | (Fail err, _, w) => (Fail err, log err w)
                      | (NoCallback, _, w) => (NoCallback, w)
                      | (Threw e, _, w) => (Threw e, w)
                      end
                  end
              | (Fail err, _, w) => (Fail err, log err w)
              | (NoCallback, _, w) => (NoCallback, w)
              | (Threw e, _, w) => (Threw e, w)
              end
          end
      end
  end.

End StatsSchema.

(** ** Readings used in the statements *)

(** The counter of a lobby agrees with both of its sequences. *)
Definition rosterCounted (game : Game.t) : Prop :=
  Game.numPlayers game = Z.of_nat (length (Game.players game)) ∧
  Game.numPlayers game = Z.of_nat (length (Game.playerNames game)).

(** The time of a finalized result as the specification words it: the
    reported time when that is within 100 ms of the elapsed time, and the
    elapsed time otherwise.  A time that is unset or not a finite number
    is within 100 ms of nothing. *)
Definition withinThreshold (reported : field) (elapsed : number) : bool :=
  match reported, elapsed with
  | Some (Num q), Num r =>
      bool_decide (- Q2Qc (inject_Z 100) ≤ r - q ≤ Q2Qc (inject_Z 100))%Qc
  | _, _ => false
  end.

Definition specifiedTime (reported : field) (elapsed : number) : field :=
  if withinThreshold reported elapsed then reported else Some elapsed.

(** The world after [gameTimeouts.create] armed the callback that closes
    joining, respectively the one that starts the game, at delay [d]. *)
Definition closeJoiningIn (game : Game.t) (w : World) (d : Z) : World :=
  set_gameTimeouts
    (<[Game.id game := {| delay := d; action := CloseJoining |}]> (gameTimeouts w)) w.

Definition startGameIn (game : Game.t) (w : World) (d : Z) : World :=
  set_gameTimeouts
    (<[Game.id game := {| delay := d; action := StartGame |}]> (gameTimeouts w)) w.

(** ** Sample documents

    Concrete users, games and worlds on which the methods are run. *)

Module Samples.

Definition oid (s : string) : ObjectId := {| toHexString := s |}.

Definition player (i name : string) (current : option ObjectId) : User.t :=
  {| User._id := oid i; User.username := name; User.password := None;
     User.isAnonymous := false; User.isAdmin := false;
     User.bestTime := None; User.bestSpeed := None;
     User.averageTime := ofZ 0; User.averageSpeed := ofZ 0;
     User.totalGames := ofZ 0; User.totalMultiplayerGames := ofZ 0;
     User.gamesWon := ofZ 0; User.isAllowedIngame := true;
     User.ingameAction := None;
     User.ingameArgs :=
       {| User.game := None; User.lang := None; User.isSinglePlayer := false |};
     User.currentGame := current |}.

(** A saved multi-player game with the given roster, waiting and joinable. *)
Definition lobby (i : string) (roster : list (string * string)) : Game.t :=
  Game.set_numPlayers (Z.of_nat (length roster))
    (Game.set_playerNames (roster.*2)
      (Game.set_players (oid <$> roster.*1)
        (Game.set_isNew false
          (Game.set_exercise (Some (oid "e1"))
            (GameSchema.beginMultiPlayer (UserSchema.newGame (oid i))))))).

Definition exercise1 : Exercise.t :=
  {| Exercise._id := oid "e1"; Exercise.isInitialized := true;
     Exercise.lang := "javascript"; Exercise.code := ""; Exercise.typeableCode := "";
     Exercise.typeables := Some (ofZ 100) |}.

(** A world at instant [t] whose clock moves on by 2 ms from one read to
    the next. *)
Definition world (us : list User.t) (gs : list Game.t) (fs : Faults) (t : Z) : World :=
  {| users := list_to_map ((λ u, (User.id u, u)) <$> us);
     games := list_to_map ((λ g, (Game.id g, g)) <$> gs);
     exercises := {[ "e1" := exercise1 ]};
     langs := ∅;
     statistics := [];
     gameTimeouts := ∅;
     emitted := [];
     logged := [];
     faults := fs;
     now := t;
     lag := 2;
     isModified := λ _, true;
     freshId := oid "fresh";
     randomIndex := 0%nat |}.

Definition alice : User.t := player "a1" "alice" (Some (oid "g1")).
Definition bob : User.t := player "b2" "bob" (Some (oid "g1")).
Definition carol : User.t := player "c3" "carol" None.
(** dave is still a member of another lobby. *)
Definition dave : User.t := player "d4" "dave" (Some (oid "g0")).
(** erin was sent a link to a lobby that does not exist. *)
Definition erin : User.t :=
  User.set_ingameArgs
    {| User.game := Some (oid "gone"); User.lang := None; User.isSinglePlayer := false |}
    (User.set_ingameAction (Some "join") (player "e5" "erin" (Some (oid "gone")))).

(** alice and bob wait in lobby g1; [racing] is that lobby once started. *)
Definition waiting : Game.t := lobby "g1" [("a1", "alice"); ("b2", "bob")].
Definition racing : Game.t :=
  GameSchema.start (Game.set_startTime (Some 0) (Game.set_starting true waiting)).
(** The same lobby counting down to a start at 20000 ms. *)
Definition counting : Game.t :=
  Game.set_startTime (Some 20000) (Game.set_starting true waiting).
(** A lobby everybody left while it was counting down. *)
Definition deserted : Game.t :=
  Game.set_startTime (Some 20000) (Game.set_starting true (lobby "g1" [])).

Definition lounge : World := world [alice; bob; carol; dave] [waiting] no_faults 0.
Definition desertedLounge : World :=
  gameTimeouts.create "g1" 15001 CloseJoining (world [] [deserted] no_faults 0).
(** No lobby is stored, yet a timeout of lobby "gone" is pending. *)
Definition staleTimeout : World :=
  gameTimeouts.create "gone" 5001 StartGame (world [erin] [] no_faults 0).

(** alice finishes the race of g1 after 12 s with 120 keystrokes; the
    server measures 12050 ms. *)
Definition result (t : Z) : Stats.t :=
  {| Stats.player := oid "a1"; Stats.game := oid "g1";
     Stats.time := Some (ofZ t); Stats.speed := None; Stats.typeables := None;
     Stats.keystrokes := Some (ofZ 120); Stats.percentUnproductive := None;
     Stats.mistakes := Some (ofZ 3) |}.
Definition finishLine : World := world [alice; bob] [racing] no_faults 12050.
(** The same instant with a driver that cannot write results. *)
Definition resultsDown : World :=
  world [alice; bob] [racing]
    {| findUser := None; findGame := None; findExercise := None; findLang := None;
       saveUser := None; saveGame := None; saveStats := Some "write failed" |} 12050.

(** A result as [StatsSchema.updateStatistics] hands it on: [t] ms at
    [v] words per minute. *)
Definition scored (t v : Z) : Stats.t := Stats.set_speed (Some (ofZ v)) (result t).
(** [racing] after a first finisher at 15 s. *)
Definition led : Game.t :=
  Game.set_winnerSpeed (Some (ofZ 80))
    (Game.set_winnerTime (Some (ofZ 15000)) (Game.set_winner (Some (oid "b2")) racing)).
(** [led] after alice beat that with 12 s: she is the recorded winner. *)
Definition won : Game.t :=
  (GameSchema.updateStatistics (scored 12000 100) led finishLine).1.2.
(** alice with a best time of 5 s on record. *)
Definition veteran : User.t :=
  User.set_totalGames (ofZ 1) (User.set_bestTime (Some (ofZ 5000)) alice).

(** alice alone in lobby g1 while it still counts down. *)
Definition alone : Game.t :=
  Game.set_startTime (Some 20000) (Game.set_starting true (lobby "g1" [("a1", "alice")])).
(** [counting] after joining closed. *)
Definition closed : Game.t := Game.set_isJoinable false counting.
(** At 15001 ms the timeout that closes joining of [counting] is due. *)
Definition closePending : World :=
  gameTimeouts.create "g1" 15001 CloseJoining (world [alice; bob] [counting] no_faults 15001).
(** At 20001 ms the timeout that starts [closed] is due. *)
Definition startPending : World :=
  gameTimeouts.create "g1" 4999 StartGame (world [alice; bob] [closed] no_faults 20001).
(** alice is the only player of the stored lobby. *)
Definition soloLounge : World := world [alice] [alone] no_faults 0.
(** What carol asks for when she creates a game. *)
Definition practice : UserSchema.Opts :=
  {| UserSchema.opt_lang := "javascript"; UserSchema.opt_langName := Some "JavaScript";
     UserSchema.opt_exercise := Some (oid "e1"); UserSchema.opt_isSinglePlayer := true |}.
Definition race : UserSchema.Opts :=
  {| UserSchema.opt_lang := "javascript"; UserSchema.opt_langName := Some "JavaScript";
     UserSchema.opt_exercise := Some (oid "e1"); UserSchema.opt_isSinglePlayer := false |}.
(** bob's result for the race of g1: 15 s at 80 words per minute. *)
Definition bobScored : Stats.t :=
  {| Stats.player := oid "b2"; Stats.game := oid "g1";
     Stats.time := Some (ofZ 15000); Stats.speed := Some (ofZ 80);
     Stats.typeables := Some (ofZ 100); Stats.keystrokes := Some (ofZ 110);
     Stats.percentUnproductive := None; Stats.mistakes := None |}.
Definition javascript : Lang.t :=
  {| Lang.key := "javascript"; Lang.name := "JavaScript";
     Lang.exercises := [oid "e1"; oid "e2"] |}.

End Samples.

(** * Properties *)

Import Samples.

(** ** Facts about numbers *)

Section NumberFacts.

(** [|x| > c] says that [x] lies outside the band [-c .. c]. *)
Lemma Qc_outside_band (x c : Qc) :
  (0 ≤ c)%Qc →
  (if decide (x < 0)%Qc then (c < - x)%Qc else (c < x)%Qc) ↔ ¬ (- c ≤ x ≤ c)%Qc.
Proof.
  destruct (decide (x < 0)%Qc) as [Hneg|Hpos]; revert Hneg || revert Hpos;
    unfold Qclt, Qcle; simpl; rewrite !Qred_correct;
    generalize (this x) (this c); intros a b ? ?; split; intros; lra.
Qed.

Lemma or_else_positive (q : Qc) (d : number) :
  (0 < q)%Qc → or_else (Some (Num q)) d = Num q.
Proof.
  intros Hq. unfold or_else, truthy. rewrite bool_decide_eq_true_2; [done|].
  intros ->. by apply (irreflexivity Qclt 0%Qc).
Qed.

Lemma or_else_zero (d : number) : or_else (Some (Num 0%Qc)) d = d.
Proof. reflexivity. Qed.

Lemma or_else_nonzero (p : Qc) (d : number) :
  p ≠ 0%Qc → or_else (Some (Num p)) d = Num p.
Proof. intros Hp. unfold or_else, truthy. by rewrite bool_decide_eq_true_2. Qed.

Lemma or_else_zero_default (s : number) : s ≠ NaN → or_else (Some s) (ofZ 0) = s.
Proof.
  intros Hs. destruct s as [q| | |]; try done.
  unfold or_else, truthy. case_bool_decide as Hq; [done|].
  by subst q.
Qed.

(** An ObjectId is never strictly equal to a string. *)
Lemma objectId_strict_eq_string (o : option ObjectId) (s : string) :
  strict_eq_string (ofObjectId o) s = false.
Proof. by destruct o. Qed.

End NumberFacts.

(** ** The lobby state machine *)

Section StateMachine.

Import GameSchema.

(** The two branch functions with the clock reads written out. *)
Lemma deduceGameStateSinglePlayer_eq game w :
  deduceGameStateSinglePlayer game w
  = if negb (Game.started game) then
      if negb (Game.starting game) then
        setupTiming
          (Game.set_startTime (Some (now w + GAME_SINGLE_PLAYER_WAIT_TIME * 1000))
             (Game.set_starting true game))
          (set_now (now w + lag w) w)
      else setupTiming game w
    else (game, w).
Proof.
  unfold deduceGameStateSinglePlayer.
  by destruct (Game.started game), (Game.starting game).
Qed.

Lemma deduceGameStateMultiPlayer_eq game w :
  deduceGameStateMultiPlayer game w
  = if negb (Game.started game) then
      if Game.starting game then
        if bool_decide (Game.numPlayers game < 2) then
          (Game.set_isJoinable true (Game.set_startTime None (Game.set_starting false game)),
           gameTimeouts.remove (Game.id game) w)
        else setupTiming game w
      else
        if bool_decide (Game.numPlayers game > 1) then
          setupTiming
            (Game.set_startTime (Some (now w + GAME_MULTI_PLAYER_WAIT_TIME * 1000))
               (Game.set_starting true game))
            (set_now (now w + lag w) w)
        else (game, w)
    else (game, w).
Proof. reflexivity. Qed.

(** C3. Reconciling a lobby without players completes it: [isComplete]
    is set, [isViewable] and [isJoinable] are cleared, the pending timeout
    of the lobby is removed from the registry, and nothing else happens:
    the step is exactly [finish], so what the single-player and
    multi-player branches write ([starting], [started], [startTime],
    [status], [startingPlayers]) is left as it was and no timeout is armed. *)
Theorem deduceGameState_no_players (game : Game.t) (w : World) :
  Game.numPlayers game = 0 →
  let game' := (deduceGameState game w).1 in
  let w' := (deduceGameState game w).2 in
  Game.isComplete game' = true ∧
  Game.isViewable game' = false ∧
  Game.isJoinable game' = false ∧
  gameTimeouts w' !! Game.id game = None ∧
  gameTimeouts w' = delete (Game.id game) (gameTimeouts w) ∧
  deduceGameState game w = finish game w ∧
  Game.starting game' = Game.starting game ∧
  Game.started game' = Game.started game ∧
  Game.startTime game' = Game.startTime game ∧
  Game.status game' = Game.status game ∧
  Game.startingPlayers game' = Game.startingPlayers game.
Proof.
  intros Hnone. unfold deduceGameState.
  rewrite bool_decide_eq_true_2 by exact Hnone. simpl.
  repeat split. apply lookup_delete_eq.
Qed.

(** The lobby everybody left while its join cutoff was pending. *)
Lemma deduceGameState_no_players_witness :
  Game.numPlayers deserted = 0 ∧
  gameTimeouts desertedLounge !! "g1" = Some {| delay := 15001; action := CloseJoining |} ∧
  Game.isComplete (deduceGameState deserted desertedLounge).1 = true ∧
  gameTimeouts (deduceGameState deserted desertedLounge).2 !! "g1" = None ∧
  Game.starting (deduceGameState deserted desertedLounge).1 = true.
Proof.
  pose proof (deduceGameState_no_players deserted desertedLounge eq_refl)
    as (Hc & _ & _ & Ht & _ & _ & Hs & _).
  split; [reflexivity|]. split; [by vm_compute|].
  split; [exact Hc|]. split; [exact Ht|]. exact Hs.
Defined.

(** C4, counterexample. A joinable lobby that starts in 20 s: the
    timeout is armed at 15001 ms, not at remaining - cutoff = 15000 ms. *)
Lemma setupTiming_delay_is_not_remaining_minus_cutoff :
  Game.isJoinable counting = true ∧
  Game.startTime counting = Some 20000 ∧
  20000 - now lounge > GAME_TIME_JOIN_CUTOFF_MS ∧
  gameTimeouts (setupTiming counting lounge).2 !! Game.id counting
  = Some {| delay := 15001; action := CloseJoining |} ∧
  gameTimeouts (setupTiming counting lounge).2 !! Game.id counting
  ≠ Some {| delay := 20000 - now lounge - GAME_TIME_JOIN_CUTOFF_MS;
            action := CloseJoining |}.
Proof. by vm_compute. Qed.

(** C4, amended. With [remaining = startTime - now]: a joinable lobby
    with more than the cutoff remaining gets a timeout at
    [remaining - cutoff + 1] ms that closes joining; a joinable lobby with
    at most the cutoff remaining is closed at once and nothing is armed; a
    closed lobby with time remaining gets a timeout at [remaining + 1] ms
    that starts the game; a closed lobby with none remaining is started at
    once.  When a timeout fires its entry is deleted first; its callback,
    for a lobby that is found, clears [isJoinable] (respectively calls
    [start]) on the document found and reconciles it. *)
Theorem setupTiming_cases (game : Game.t) (w : World) (s : Z) :
  Game.startTime game = Some s →
  let remaining := s - now w in
  (Game.isJoinable game = true → remaining > GAME_TIME_JOIN_CUTOFF_MS →
     setupTiming game w
     = (game, closeJoiningIn game w (remaining - GAME_TIME_JOIN_CUTOFF_MS + 1))) ∧
  (Game.isJoinable game = true → remaining ≤ GAME_TIME_JOIN_CUTOFF_MS →
     setupTiming game w = (Game.set_isJoinable false game, w)) ∧
  (Game.isJoinable game = false → remaining > 0 →
     setupTiming game w = (game, startGameIn game w (remaining + 1))) ∧
  (Game.isJoinable game = false → remaining ≤ 0 →
     setupTiming game w = (start game, w)) ∧
  (∀ t, gameTimeouts w !! Game.id game = Some t →
     fire (Game.id game) w
     = runTimeout (action t) (Game.id game) (gameTimeouts.remove (Game.id game) w)) ∧
  (∀ found, findGame (faults w) = None → games w !! Game.id game = Some found →
     runTimeout CloseJoining (Game.id game) w
     = (Returned, (updateGameState (Game.set_isJoinable false found) w).2) ∧
     runTimeout StartGame (Game.id game) w
     = (Returned, (updateGameState (start found) w).2)).
Proof.
  intros Hs remaining.
  assert (Hleft : timeLeft game w = remaining) by (unfold timeLeft; by rewrite Hs).
  unfold setupTiming. rewrite Hleft.
  split; [|split; [|split; [|split; [|split]]]].
  - intros -> Hgt. by rewrite bool_decide_eq_true_2.
  - intros -> Hle. rewrite bool_decide_eq_false_2; [done | lia].
  - intros -> Hgt. by rewrite bool_decide_eq_true_2.
  - intros -> Hle. rewrite bool_decide_eq_false_2; [done | lia].
  - intros t Ht. unfold fire. by rewrite Ht.
  - intros found Hfault Hfound. unfold runTimeout, findById.
    rewrite Hfault. simpl. rewrite Hfound.
    split.
    + by destruct (updateGameState (Game.set_isJoinable false found) w) as [[? ?] ?].
    + by destruct (updateGameState (start found) w) as [[? ?] ?].
Qed.

Lemma setupTiming_cases_witness :
  Game.startTime counting = Some 20000 ∧
  Game.isJoinable counting = true ∧
  setupTiming counting lounge = (counting, closeJoiningIn counting lounge 15001).
Proof.
  split; [reflexivity|]. split; [reflexivity|].
  apply (setupTiming_cases counting lounge 20000 eq_refl); [reflexivity | by vm_compute].
Defined.

End StateMachine.

(** ** Membership *)

Section Membership.

Import GameSchema UserSchema.

Lemma getJoinError_None game player :
  getJoinError game player = None ↔
  (Game.isJoinable game = true ∨ Game.isSinglePlayer game = true) ∧
  User.id player ∉ map toHexString (Game.players game).
Proof.
  unfold getJoinError.
  destruct (Game.isJoinable game), (Game.isSinglePlayer game); simpl;
    try case_bool_decide; split; try discriminate; try tauto;
    intros [[?|?] ?]; done.
Qed.

(** [getJoinError] never reads [currentGame]. *)
Lemma getJoinError_ignores_currentGame game player (c : option ObjectId) :
  getJoinError game (User.set_currentGame c player) = getJoinError game player.
Proof. reflexivity. Qed.

Lemma setupTiming_faults game w : faults (setupTiming game w).2 = faults w.
Proof. unfold setupTiming. repeat case_match; reflexivity. Qed.

Lemma deduceGameState_faults game w : faults (deduceGameState game w).2 = faults w.
Proof.
  unfold deduceGameState; cbv zeta;
    rewrite ?deduceGameStateSinglePlayer_eq, ?deduceGameStateMultiPlayer_eq; unfold finish.
  repeat case_match; simpl; try reflexivity; by rewrite setupTiming_faults.
Qed.

(** With a driver that saves games, [updateGameState] reports the saved
    document. *)
Lemma updateGameState_saved game w :
  saveGame (faults w) = None →
  ∃ game' w', updateGameState game w = (Ok game', game', w') ∧ faults w' = faults w.
Proof.
  intros Hsave. unfold updateGameState.
  pose proof (deduceGameState_faults game w) as Hf.
  destruct (deduceGameState game w) as [g1 w1]. simpl in Hf.
  rewrite Hf, Hsave. simpl.
  eexists _, _. split; [reflexivity|].
  repeat case_match; simpl; exact Hf.
Qed.

(** X1. How the join fails and when it succeeds.  It fails with the
    lobby-unavailable error whenever the lobby is neither joinable nor
    single-player; otherwise it fails with the already-in-game error
    whenever the player's id is in the roster; it succeeds only when the
    lobby is joinable or single-player and the id is not in the roster; and
    for a player whose [currentGame] is unset it does succeed then,
    provided the game and the user are saved. *)
Theorem joinGame_errors (game : Game.t) (user : User.t) (w : World) :
  let r := (joinGame game user w).1.1.1 in
  let roster := map toHexString (Game.players game) in
  let available := Game.isJoinable game = true ∨ Game.isSinglePlayer game = true in
  (¬ available → r = Fail LobbyUnavailable) ∧
  (available → User.id user ∈ roster → r = Fail AlreadyInGame) ∧
  (∀ game', r = Ok game' → available ∧ User.id user ∉ roster) ∧
  (User.currentGame user = None → available → User.id user ∉ roster →
   saveGame (faults w) = None → saveUser (faults w) = None →
   ∃ game', r = Ok game').
Proof.
  intros r roster available. subst r. unfold joinGame.
  split; [|split; [|split]].
  - intros Hclosed. unfold getJoinError.
    destruct (Game.isJoinable game), (Game.isSinglePlayer game); simpl;
      first [ reflexivity | exfalso; apply Hclosed; unfold available; auto ].
  - intros Havailable Hin. unfold getJoinError.
    replace (negb (Game.isJoinable game) && negb (Game.isSinglePlayer game)) with false
      by (destruct Havailable as [-> | ->]; simpl; by rewrite ?andb_false_r).
    by rewrite bool_decide_eq_true_2.
  - intros game'. destruct (getJoinError game user) eqn:Herr; [discriminate|].
    intros _. by apply getJoinError_None.
  - intros _ Havailable Hnotin Hg Hu.
    rewrite (proj2 (getJoinError_None game user)) by done.
    unfold addPlayer.
    edestruct updateGameState_saved as (g' & w' & -> & Hf); [exact Hg|].
    rewrite Hf, Hu. simpl. eauto.
Qed.

(** carol, who is in no lobby, joins the waiting lobby. *)
Example joinGame_carol :
  ∃ game', (joinGame waiting carol lounge).1.1.1 = Ok game' ∧
           Game.playerNames game' = ["alice"; "bob"; "carol"].
Proof. eexists. split; by vm_compute. Qed.

(** alice is in the roster of a lobby that has started: both error
    conditions hold, and the first test of [getJoinError] decides. *)
Example joinGame_member_of_closed_lobby :
  User.id alice ∈ map toHexString (Game.players racing) ∧
  Game.isJoinable racing = false ∧
  Game.isSinglePlayer racing = false ∧
  (joinGame racing alice lounge).1.1.1 = Fail LobbyUnavailable.
Proof. split; [apply (bool_decide_unpack _); by vm_compute|]. by vm_compute. Qed.

(** C1. The join does not fail for a player whose [currentGame] is
    already set: dave, whose [currentGame] points to lobby g0, joins the
    waiting lobby g1; the join succeeds, dave is appended to the roster and
    his [currentGame] is overwritten.  [createGame], in the same state,
    refuses him with the already-in-game error. *)
Theorem joinGame_ignores_currentGame :
  User.currentGame dave = Some (oid "g0") ∧
  Game.isJoinable waiting = true ∧
  (User.id dave ∉ map toHexString (Game.players waiting)) ∧
  (∃ game', (joinGame waiting dave lounge).1.1.1 = Ok game' ∧
            Game.playerNames game' = ["alice"; "bob"; "dave"]) ∧
  User.currentGame (joinGame waiting dave lounge).1.1.2 = Some (oid "g1") ∧
  (∀ opts, (createGame opts dave lounge).1.1 = Fail AlreadyInGame).
Proof.
  split; [reflexivity|]. split; [reflexivity|].
  split; [apply (bool_decide_unpack _); by vm_compute|].
  split; [eexists; split; by vm_compute|].
  split; by vm_compute.
Qed.

(** [updateGameState] changes neither the sequences nor the counter. *)
Lemma setupTiming_roster game w :
  let game' := (setupTiming game w).1 in
  Game.players game' = Game.players game ∧
  Game.playerNames game' = Game.playerNames game ∧
  Game.numPlayers game' = Game.numPlayers game.
Proof. unfold setupTiming. repeat case_match; done. Qed.

Lemma deduceGameState_roster game w :
  let game' := (deduceGameState game w).1 in
  Game.players game' = Game.players game ∧
  Game.playerNames game' = Game.playerNames game ∧
  Game.numPlayers game' = Game.numPlayers game.
Proof.
  unfold deduceGameState; cbv zeta;
    rewrite ?deduceGameStateSinglePlayer_eq, ?deduceGameStateMultiPlayer_eq; unfold finish.
  repeat case_match; simpl; try done;
    match goal with
    | |- context [setupTiming ?g ?w] => by destruct (setupTiming_roster g w) as (-> & -> & ->)
    end.
Qed.

Lemma updateGameState_roster game w :
  let game' := (updateGameState game w).1.2 in
  Game.players game' = Game.players game ∧
  Game.playerNames game' = Game.playerNames game ∧
  Game.numPlayers game' = Game.numPlayers game.
Proof.
  unfold updateGameState.
  pose proof (deduceGameState_roster game w) as H.
  destruct (deduceGameState game w) as [g1 w1]. simpl in H.
  destruct (saveGame (faults w1)); simpl; exact H.
Qed.

Lemma addPlayer_roster player game w :
  let game' := (addPlayer player game w).1.2 in
  Game.players game' = Game.players game ++ [User._id player] ∧
  Game.playerNames game' = Game.playerNames game ++ [User.username player] ∧
  Game.numPlayers game' = Game.numPlayers game + 1.
Proof.
  unfold addPlayer.
  match goal with
  | |- context [updateGameState ?g w] =>
      destruct (updateGameState_roster g w) as (Hp & Hn & Hc)
  end.
  cbv zeta. by rewrite Hp, Hn, Hc.
Qed.

Lemma removePlayer_roster player game w :
  let game' := (removePlayer player game w).1.2 in
  Game.players game' = remove (User._id player) (Game.players game) ∧
  Game.playerNames game' = remove (User.username player) (Game.playerNames game) ∧
  Game.numPlayers game'
  = if bool_decide (Game.numPlayers game ≤ 0) then 0 else Game.numPlayers game - 1.
Proof.
  unfold removePlayer.
  match goal with
  | |- context [updateGameState ?g w] =>
      destruct (updateGameState_roster g w) as (Hp & Hn & Hc)
  end.
  cbv zeta. by rewrite Hp, Hn, Hc.
Qed.

(** [remove] shortens a list by the number of occurrences it takes out. *)
Lemma length_remove {A : Type} `{EqDecision A} (x : A) (l : list A) :
  (length (remove x l) + length (filter (λ y, y = x) l) = length l)%nat.
Proof.
  unfold remove. induction l as [|y l IH]; [reflexivity|].
  rewrite !filter_cons. destruct (decide (y = x)), (decide (y ≠ x)); simpl; try lia; done.
Qed.

Lemma remove_absent {A : Type} `{EqDecision A} (x : A) (l : list A) :
  x ∉ l → remove x l = l.
Proof.
  unfold remove. induction l as [|y l IH]; [done|].
  rewrite not_elem_of_cons. intros [Hne Hnotin].
  rewrite filter_cons_True by done. by rewrite IH.
Qed.

(** C2, counterexample. The counter of the waiting lobby agrees with
    its two sequences; after carol, who is not in it, is removed, the
    counter is 1 and both sequences still have two elements. *)
Lemma removePlayer_absent_breaks_count :
  rosterCounted waiting ∧
  (User._id carol ∉ Game.players waiting) ∧
  (User.username carol ∉ Game.playerNames waiting) ∧
  Game.numPlayers (removePlayer carol waiting lounge).1.2 = 1 ∧
  length (Game.players (removePlayer carol waiting lounge).1.2) = 2%nat ∧
  length (Game.playerNames (removePlayer carol waiting lounge).1.2) = 2%nat.
Proof.
  split; [by vm_compute|].
  split; [apply (bool_decide_unpack _); by vm_compute|].
  split; [apply (bool_decide_unpack _); by vm_compute|].
  by vm_compute.
Qed.

(** C2, amended. In a lobby whose counter agrees with its sequences,
    [addPlayer] keeps the agreement, and [removePlayer] keeps it when the
    player's id occurs exactly once in [players] and the username exactly
    once in [playerNames].  For a player who occurs in neither sequence
    [removePlayer] leaves both as they are and still lowers the counter by
    one (unless it is 0 already). *)
Theorem roster_counted_after_membership_change
    (game : Game.t) (player : User.t) (w : World) :
  rosterCounted game →
  rosterCounted (addPlayer player game w).1.2 ∧
  (length (filter (λ p, p = User._id player) (Game.players game)) = 1%nat →
   length (filter (λ n, n = User.username player) (Game.playerNames game)) = 1%nat →
   rosterCounted (removePlayer player game w).1.2) ∧
  (User._id player ∉ Game.players game →
   User.username player ∉ Game.playerNames game →
   let game' := (removePlayer player game w).1.2 in
   Game.players game' = Game.players game ∧
   Game.playerNames game' = Game.playerNames game ∧
   Game.numPlayers game' = Z.max 0 (Game.numPlayers game - 1)).
Proof.
  intros [Hp Hn]. split; [|split].
  - destruct (addPlayer_roster player game w) as (Hp' & Hn' & Hc').
    unfold rosterCounted. rewrite Hp', Hn', Hc', !length_app. simpl. lia.
  - intros Hid Hname.
    destruct (removePlayer_roster player game w) as (Hp' & Hn' & Hc').
    unfold rosterCounted. rewrite Hp', Hn', Hc'.
    pose proof (length_remove (User._id player) (Game.players game)).
    pose proof (length_remove (User.username player) (Game.playerNames game)).
    case_bool_decide; lia.
  - intros Hid Hname.
    destruct (removePlayer_roster player game w) as (Hp' & Hn' & Hc').
    cbv zeta. rewrite Hp', Hn', Hc', !remove_absent by done.
    repeat split. case_bool_decide; lia.
Qed.

(** bob leaves the waiting lobby. *)
Lemma roster_counted_after_membership_change_witness :
  rosterCounted waiting ∧
  rosterCounted (addPlayer carol waiting lounge).1.2 ∧
  rosterCounted (removePlayer bob waiting lounge).1.2 ∧
  Game.playerNames (removePlayer bob waiting lounge).1.2 = ["alice"].
Proof.
  assert (Hc : rosterCounted waiting) by (by vm_compute).
  pose proof (roster_counted_after_membership_change waiting carol lounge Hc) as [Hadd _].
  pose proof (roster_counted_after_membership_change waiting bob lounge Hc)
    as (_ & Hremove & _).
  split; [exact Hc|]. split; [exact Hadd|].
  split; [apply Hremove; reflexivity | reflexivity].
Defined.

(** C10. A player whose [currentGame] names a lobby that is not in the
    store: [quitCurrentGame] changes neither the player nor the world and
    ends without invoking its callback. *)
Theorem quitCurrentGame_missing_game (user : User.t) (w : World) (g : ObjectId) :
  User.currentGame user = Some g →
  findGame (faults w) = None →
  games w !! toHexString g = None →
  quitCurrentGame user w = (NoCallback, user, w).
Proof.
  intros Hcur Hfault Hmissing. unfold quitCurrentGame, findById.
  rewrite Hcur, Hfault. simpl. by rewrite Hmissing.
Qed.

Lemma quitCurrentGame_missing_game_witness :
  User.currentGame erin = Some (oid "gone") ∧
  games staleTimeout !! "gone" = None ∧
  quitCurrentGame erin staleTimeout = (NoCallback, erin, staleTimeout) ∧
  User.currentGame (quitCurrentGame erin staleTimeout).1.2 = Some (oid "gone").
Proof.
  split; [reflexivity|]. split; [reflexivity|].
  pose proof (quitCurrentGame_missing_game erin staleTimeout (oid "gone")
                eq_refl eq_refl eq_refl) as H.
  split; [exact H|]. by rewrite H.
Defined.

(** C5. The lookups of a lobby by id are not all checked: when the lobby
    is not in the store, the callback of a pending timeout throws on the
    document it did not get, and so does the [join] branch of
    [performIngameAction]. *)
Theorem missing_game_is_dereferenced
    (user : User.t) (w : World) (g : ObjectId) (t : Timeout) :
  findGame (faults w) = None →
  games w !! toHexString g = None →
  (gameTimeouts w !! toHexString g = Some t →
   ∃ e, (fire (toHexString g) w).1 = Uncaught e) ∧
  (User.ingameAction user = Some "join" →
   User.game (User.ingameArgs user) = Some g →
   ∃ e, (performIngameAction user w).1.1 = Threw e).
Proof.
  intros Hfault Hmissing. split.
  - intros Ht. unfold fire, runTimeout, findById. rewrite Ht. simpl.
    rewrite Hfault. simpl. rewrite Hmissing. simpl. eauto.
  - intros Hact Harg. unfold performIngameAction, findById.
    rewrite bool_decide_eq_true_2 by done.
    rewrite Hfault, Harg. simpl. rewrite Hmissing. eauto.
Qed.

Lemma missing_game_is_dereferenced_witness :
  games staleTimeout !! "gone" = None ∧
  gameTimeouts staleTimeout !! "gone" = Some {| delay := 5001; action := StartGame |} ∧
  (∃ e, (fire "gone" staleTimeout).1 = Uncaught e) ∧
  (∃ e, (performIngameAction erin staleTimeout).1.1 = Threw e).
Proof.
  split; [reflexivity|]. split; [by vm_compute|].
  pose proof (missing_game_is_dereferenced erin staleTimeout (oid "gone")
                {| delay := 5001; action := StartGame |} eq_refl eq_refl) as [Hfire Hjoin].
  split; [apply Hfire; by vm_compute | apply Hjoin; reflexivity].
Defined.

End Membership.

(** ** Statistics *)

Section Statistics.

Lemma game_updateStatistics_saved stats game w :
  saveGame (faults w) = None →
  ∃ game' w', GameSchema.updateStatistics stats game w = (Ok game', game', w') ∧
              faults w' = faults w ∧ statistics w' = statistics w.
Proof.
  intros Hsave. unfold GameSchema.updateStatistics.
  case_match; [rewrite Hsave|]; simpl; eauto.
Qed.

Lemma user_updateStatistics_saved stats game user w :
  saveUser (faults w) = None →
  ∃ user' w', UserSchema.updateStatistics stats game user w = (Ok user', user', w') ∧
              statistics w' = statistics w.
Proof.
  intros Hsave. unfold UserSchema.updateStatistics. rewrite Hsave. eauto.
Qed.

Lemma stats_save_faults stats w : faults (StatsSchema.save stats w) = faults w.
Proof. unfold StatsSchema.save. by destruct (saveStats (faults w)). Qed.

(** A submission whose user, game and exercise exist and whose game and
    user are saved succeeds with the finalized result, whatever became of
    the write of the result itself. *)
Lemma updateStatistics_succeeds stats w user game e exercise :
  findUser (faults w) = None → findGame (faults w) = None →
  findExercise (faults w) = None →
  saveGame (faults w) = None → saveUser (faults w) = None →
  users w !! toHexString (Stats.player stats) = Some user →
  games w !! toHexString (Stats.game stats) = Some game →
  Game.exercise game = Some e →
  exercises w !! toHexString e = Some exercise →
  ∃ user' game' w',
    StatsSchema.updateStatistics stats w
    = (Ok (StatsSchema.finalize exercise game stats w, user', game'), w') ∧
    statistics w'
    = statistics (StatsSchema.save (StatsSchema.finalize exercise game stats w) w).
Proof.
  intros Hfu Hfg Hfe Hsg Hsu Hu Hg He Hex.
  unfold StatsSchema.updateStatistics, findById.
  rewrite Hfu, Hfg. simpl. rewrite Hg, Hfe, He. simpl. rewrite Hex, Hu.
  set (stats' := StatsSchema.finalize exercise game stats w).
  set (w1 := StatsSchema.save stats' w).
  assert (Hf1 : faults w1 = faults w) by apply stats_save_faults.
  destruct (game_updateStatistics_saved stats' game w1) as (game' & w2 & -> & Hf2 & Hs2);
    [by rewrite Hf1|].
  destruct (user_updateStatistics_saved stats' game' user w2) as (user' & w3 & -> & Hs3);
    [by rewrite Hf2, Hf1|].
  eexists _, _, _. split; [reflexivity|]. by rewrite Hs3, Hs2.
Qed.

(** The test of the clamp, for a finite reported time. *)
Lemma clamp_test (r q : Qc) :
  gtb (abs (sub (Num r) (Num q))) STATISTICS_VALIDATION_THRESHOLD_MS = true ↔
  ¬ (- Q2Qc (inject_Z 100) ≤ r - q ≤ Q2Qc (inject_Z 100))%Qc.
Proof.
  rewrite <- Qc_outside_band by done.
  unfold gtb, sub, abs, STATISTICS_VALIDATION_THRESHOLD_MS, ofZ. simpl.
  unfold Qcminus.
  destruct (decide (r + - q < 0)%Qc) as [Hneg|Hpos]; simpl;
    by rewrite bool_decide_eq_true.
Qed.

Lemma finalize_time exercise game stats w :
  Stats.time (StatsSchema.finalize exercise game stats w)
  = if gtb (abs (sub (StatsSchema.realTime game w) (toNumber (Stats.time stats))))
           STATISTICS_VALIDATION_THRESHOLD_MS
    then Some (StatsSchema.realTime game w) else Stats.time stats.
Proof. unfold StatsSchema.finalize. by case_match. Qed.

Lemma finalize_speed exercise game stats w :
  Stats.speed (StatsSchema.finalize exercise game stats w)
  = Some (mul (div (toNumber (Exercise.typeables exercise)) CHARACTERS_PER_WORD)
              (div (ofZ 1)
                   (div (toNumber (Stats.time (StatsSchema.finalize exercise game stats w)))
                        MILLISECONDS_PER_MINUTE))).
Proof. unfold StatsSchema.finalize. by case_match. Qed.

Lemma finalize_percentUnproductive exercise game stats w :
  Stats.percentUnproductive (StatsSchema.finalize exercise game stats w)
  = Some (sub (ofZ 1)
              (div (toNumber (Exercise.typeables exercise))
                   (toNumber (Stats.keystrokes stats)))).
Proof. unfold StatsSchema.finalize. by case_match. Qed.

(** The measured time is a finite number: for a lobby with a
    [startTime], the difference of the clock and that. *)
Lemma realTime_finite game w :
  ∃ elapsed : Qc,
    StatsSchema.realTime game w = Num elapsed ∧
    ∀ s, Game.startTime game = Some s → elapsed = Q2Qc (inject_Z (now w - s)).
Proof.
  unfold StatsSchema.realTime. destruct (Game.startTime game) as [s|].
  - eexists. split; [reflexivity|]. by intros s' [= <-].
  - eexists. split; [reflexivity|]. by intros s' [=].
Qed.

Lemma finalize_result exercise game stats w (elapsed : Qc) :
  StatsSchema.realTime game w = Num elapsed →
  let stats' := StatsSchema.finalize exercise game stats w in
  (∀ q, Stats.time stats = Some (Num q) →
     let within := (- Q2Qc (inject_Z 100) ≤ elapsed - q ≤ Q2Qc (inject_Z 100))%Qc in
     (within → Stats.time stats' = Some (Num q)) ∧
     (¬ within → Stats.time stats' = Some (Num elapsed))) ∧
  (Stats.time stats = Some PosInf ∨ Stats.time stats = Some NegInf →
     Stats.time stats' = Some (Num elapsed)) ∧
  (Stats.time stats = None ∨ Stats.time stats = Some NaN →
     Stats.time stats' = Stats.time stats) ∧
  Stats.typeables stats' = Exercise.typeables exercise ∧
  Stats.speed stats'
  = Some (mul (div (toNumber (Exercise.typeables exercise)) CHARACTERS_PER_WORD)
              (div (ofZ 1) (div (toNumber (Stats.time stats')) MILLISECONDS_PER_MINUTE))) ∧
  Stats.percentUnproductive stats'
  = Some (sub (ofZ 1)
              (div (toNumber (Exercise.typeables exercise))
                   (toNumber (Stats.keystrokes stats)))).
Proof.
  intros Hreal stats'. subst stats'.
  split; [|split; [|split; [|split; [|split]]]].
  - intros q Ht within. subst within. rewrite finalize_time, Hreal, Ht. simpl toNumber.
    split.
    + intros Hin. destruct (gtb _ _) eqn:Htest; [|done].
      by apply clamp_test in Htest.
    + intros Hout. by rewrite (proj2 (clamp_test elapsed q) Hout).
  - intros [Ht|Ht]; by rewrite finalize_time, Hreal, Ht.
  - intros [Ht|Ht]; by rewrite finalize_time, Hreal, Ht.
  - reflexivity.
  - apply finalize_speed.
  - apply finalize_percentUnproductive.
Qed.




(** Where the reported time is a number, the code and the specification
    agree on the time of the result. *)
Lemma finalize_time_as_specified exercise game stats w (a : number) :
  Stats.time stats = Some a → a ≠ NaN →
  Stats.time (StatsSchema.finalize exercise game stats w)
  = specifiedTime (Stats.time stats) (StatsSchema.realTime game w).
Proof.
  intros Ht Ha. destruct (realTime_finite game w) as (elapsed & Hreal & _).
  destruct (finalize_result exercise game stats w elapsed Hreal)
    as (Hfinite & Hinf & _).
  unfold specifiedTime, withinThreshold. rewrite Hreal, Ht in *.
  destruct a as [q| | |]; [|by apply Hinf; left|by apply Hinf; right|done].
  destruct (Hfinite q eq_refl) as [Hin Hout].
  case_bool_decide; [by apply Hin|by apply Hout].
Qed.

(** The statistics scenario of the race: 100 typeables in 12 s is 100
    words per minute. *)
Example finalize_scenario :
  Stats.speed (StatsSchema.finalize exercise1 racing (result 12000) finishLine)
  = Some (ofZ 100).
Proof. vm_compute. reflexivity. Qed.

(** alice reports 3 s, the server measures 12050 ms: the measured time
    is stored. *)
Example finalize_clamps :
  Stats.time (StatsSchema.finalize exercise1 racing (result 3000) finishLine)
  = Some (ofZ 12050).
Proof. vm_compute. reflexivity. Qed.

(** C9. A submission whose result cannot be written still succeeds: with
    a driver that reads, saves games and users but fails to save results,
    the callback receives the result without an error and no result is
    stored. *)
Theorem updateStatistics_ignores_failed_result_save
    stats w user game e exercise (err : string) :
  findUser (faults w) = None → findGame (faults w) = None →
  findExercise (faults w) = None →
  saveGame (faults w) = None → saveUser (faults w) = None →
  users w !! toHexString (Stats.player stats) = Some user →
  games w !! toHexString (Stats.game stats) = Some game →
  Game.exercise game = Some e →
  exercises w !! toHexString e = Some exercise →
  saveStats (faults w) = Some err →
  ∃ r w', StatsSchema.updateStatistics stats w = (Ok r, w') ∧
          statistics w' = statistics w.
Proof.
  intros Hfu Hfg Hfe Hsg Hsu Hu Hg He Hex Hss.
  destruct (updateStatistics_succeeds stats w user game e exercise)
    as (user' & game' & w' & Hrun & Hstored); try done.
  eexists _, w'. split; [exact Hrun|].
  rewrite Hstored. unfold StatsSchema.save. by rewrite Hss.
Qed.

Lemma updateStatistics_ignores_failed_result_save_witness :
  saveStats (faults resultsDown) = Some "write failed" ∧
  ∃ r w', StatsSchema.updateStatistics (result 12000) resultsDown = (Ok r, w') ∧
          statistics w' = [].
Proof.
  split; [reflexivity|].
  assert (Hu : users resultsDown !! "a1" = Some alice) by (by vm_compute).
  assert (Hg : games resultsDown !! "g1" = Some racing) by (by vm_compute).
  assert (He : exercises resultsDown !! "e1" = Some exercise1) by (by vm_compute).
  exact (updateStatistics_ignores_failed_result_save (result 12000) resultsDown alice
           racing (oid "e1") exercise1 "write failed"
           eq_refl eq_refl eq_refl eq_refl eq_refl Hu Hg eq_refl He eq_refl).
Defined.

(** The test of [GameSchema.updateStatistics] for a finite result time and
    a winner time that is unset or finite. *)
Lemma winner_test (wt : field) (q : Qc) :
  (0 ≤ q)%Qc →
  wt = None ∨ (∃ p, wt = Some (Num p)) →
  negb (strict_eq_field wt (Some (Num q)))
  && strict_eq_field (Some (min (or_else wt PosInf) (or_else (Some (Num q)) PosInf)))
       (Some (Num q)) = true
  ↔ (0 < q)%Qc ∧
    (wt = None ∨ wt = Some (Num 0%Qc) ∨ ∃ p, wt = Some (Num p) ∧ (q < p)%Qc).
Proof.
  intros Hq0 Hwt.
  destruct (decide (q = 0%Qc)) as [->|Hq].
  - (* a zero time is falsy: it is compared as Infinity and never wins *)
    rewrite or_else_zero. split.
    + intros Htest. exfalso.
      destruct Hwt as [->|[p ->]]; [done|].
      destruct (decide (p = 0%Qc)) as [->|Hp]; [done|].
      rewrite or_else_nonzero in Htest by done. simpl in Htest.
      rewrite andb_true_iff, negb_true_iff, bool_decide_eq_false, bool_decide_eq_true in Htest.
      by destruct Htest.
    + intros [Hlt _]. by destruct (irreflexivity Qclt 0%Qc).
  - assert (Hpos : (0 < q)%Qc).
    { destruct (Qcle_lt_or_eq _ _ Hq0); [done | congruence]. }
    rewrite or_else_positive by done.
    destruct Hwt as [->|[p ->]].
    + simpl. rewrite bool_decide_eq_true_2 by done. naive_solver.
    + destruct (decide (p = 0%Qc)) as [->|Hp].
      * rewrite or_else_zero. simpl.
        rewrite bool_decide_eq_false_2 by congruence.
        rewrite bool_decide_eq_true_2 by done. naive_solver.
      * rewrite or_else_nonzero by done. simpl.
        split.
        -- rewrite andb_true_iff, negb_true_iff, bool_decide_eq_false.
           intros [Hne Hmin]. split; [done|]. right; right. exists p. split; [done|].
           destruct (decide (q < p)%Qc) as [Hlt|Hge]; [done|].
           rewrite bool_decide_eq_false_2 in Hmin by done. simpl in Hmin.
           apply bool_decide_eq_true in Hmin. congruence.
        -- intros [_ [?|[?|(p' & ? & Hlt)]]]; simplify_eq.
           rewrite (bool_decide_eq_true_2 (q < p')%Qc) by done. simpl.
           rewrite (bool_decide_eq_true_2 (Num q = Num q)) by done.
           rewrite bool_decide_eq_false_2; [done|].
           intros ?; simplify_eq. exact (irreflexivity Qclt _ Hlt).
Qed.

(** C7. A result time of 0 does not take the winner record: the lobby
    has no winner time and the result has time 0, and the lobby is left as
    it was, without a winner. *)
Theorem winner_not_updated_by_zero_time :
  Game.winnerTime racing = None ∧
  Stats.time (scored 0 100) = Some (ofZ 0) ∧
  GameSchema.updateStatistics (scored 0 100) racing finishLine
  = (Ok racing, racing, finishLine) ∧
  Game.winner racing = None.
Proof.
  split; [reflexivity|]. split; [reflexivity|]. split; [|reflexivity].
  unfold GameSchema.updateStatistics.
  replace (negb _ && _) with false by (by vm_compute). reflexivity.
Qed.

(** X2. For a result with a finite time [q >= 0] and a lobby
    whose [winnerTime] is unset or finite, the winner record becomes this
    result's player, time and speed if and only if [q] is positive and the
    lobby has no prior winner time (it is unset, or 0, which the code
    reads as unset) or [q] is strictly less than it; a result time of 0
    never updates the record; and when the record is not updated the
    lobby and the world are left as they were. *)
Theorem winner_updated_iff_positive_and_better
    (stats : Stats.t) (game : Game.t) (w : World) (q : Qc) :
  Stats.time stats = Some (Num q) →
  (0 ≤ q)%Qc →
  Game.winnerTime game = None ∨ (∃ p, Game.winnerTime game = Some (Num p)) →
  let r := GameSchema.updateStatistics stats game w in
  let better :=
    (0 < q)%Qc ∧
    (Game.winnerTime game = None ∨ Game.winnerTime game = Some (Num 0%Qc) ∨
     ∃ p, Game.winnerTime game = Some (Num p) ∧ (q < p)%Qc) in
  (better →
     Game.winner r.1.2 = Some (Stats.player stats) ∧
     Game.winnerTime r.1.2 = Some (Num q) ∧
     Game.winnerSpeed r.1.2 = Stats.speed stats) ∧
  (¬ better → r = (Ok game, game, w)).
Proof.
  intros Ht Hq Hwt r better. subst r. unfold GameSchema.updateStatistics.
  pose proof (winner_test (Game.winnerTime game) q Hq Hwt) as Htest.
  rewrite Ht. fold better in Htest.
  destruct (negb _ && _) eqn:Hc.
  - split; [|intros Hn; destruct Hn; by apply Htest].
    intros _. destruct (saveGame (faults w)); done.
  - split; [|done]. intros Hb. apply Htest in Hb. congruence.
Qed.

(** alice finishes in 12 s a race bob leads with 15 s. *)
Lemma winner_updated_iff_positive_and_better_witness :
  Stats.time (scored 12000 100) = Some (ofZ 12000) ∧
  Game.winnerTime led = Some (ofZ 15000) ∧
  Game.winner (GameSchema.updateStatistics (scored 12000 100) led finishLine).1.2
  = Some (oid "a1") ∧
  Game.winnerTime (GameSchema.updateStatistics (scored 12000 100) led finishLine).1.2
  = Some (ofZ 12000).
Proof.
  split; [reflexivity|]. split; [reflexivity|].
  assert (Hq : (0 ≤ Q2Qc (inject_Z 12000))%Qc) by (by vm_compute).
  destruct (winner_updated_iff_positive_and_better (scored 12000 100) led finishLine
              (Q2Qc (inject_Z 12000)) eq_refl Hq
              (or_intror (ex_intro _ (Q2Qc (inject_Z 15000)) eq_refl)))
    as [Hupdated _].
  destruct Hupdated as (Hw & Ht & _); [|exact (conj Hw Ht)].
  split; [by vm_compute|]. right; right. exists (Q2Qc (inject_Z 15000)).
  split; [reflexivity | by vm_compute].
Defined.

(** X3. [UserSchema.updateStatistics] never changes [gamesWon]:
    [game.winner] is an ObjectId and [user.id] a string, so the [===]
    between them is false. *)
Theorem updateStatistics_gamesWon_unchanged
    (stats : Stats.t) (game : Game.t) (user : User.t) (w : World) :
  User.gamesWon (UserSchema.updateStatistics stats game user w).1.2 = User.gamesWon user.
Proof.
  unfold UserSchema.updateStatistics. rewrite objectId_strict_eq_string.
  destruct (saveUser (faults w)), (Game.isSinglePlayer game); reflexivity.
Qed.

(** C8. The winner's [gamesWon] is not increased: alice is the recorded
    winner of the lobby, her statistics are updated and saved, and her
    [gamesWon] is what it was, while [totalGames] went up. *)
Theorem gamesWon_not_counted_for_the_winner :
  Game.winner won = Some (User._id alice) ∧
  (∃ user', (UserSchema.updateStatistics (scored 12000 100) won alice finishLine).1.1
            = Ok user' ∧
            User.gamesWon user' = User.gamesWon alice ∧
            User.totalGames user' = add (User.totalGames alice) (ofZ 1)).
Proof. split; [by vm_compute|]. eexists. repeat split. Qed.

(** A player with a best time of 5 s submits a result with time 0:
    [bestTime] stays 5000, while the minimum of the previous best time and
    the result time is 0. *)
Example bestTime_ignores_zero_time :
  User.bestTime veteran = Some (ofZ 5000) ∧
  Stats.time (scored 0 100) = Some (ofZ 0) ∧
  User.bestTime (UserSchema.updateStatistics (scored 0 100) racing veteran finishLine).1.2
  = Some (ofZ 5000) ∧
  min (or_else (User.bestTime veteran) PosInf) (toNumber (Stats.time (scored 0 100)))
  = ofZ 0.
Proof. repeat split; by vm_compute. Qed.

(** X4. For a result whose time is a positive finite number
    and whose speed is a number: [bestTime] becomes the minimum of the
    previous best time (or +Infinity) and the result time; [bestSpeed] the
    maximum of the previous best speed (or 0) and the result speed;
    [totalGames] grows by 1; [totalMultiplayerGames] grows by 1 exactly
    when the lobby is not single-player; and both averages become
    (avg * (totalGames - 1) + value) / totalGames with the new
    [totalGames]. *)
Theorem user_statistics_after_positive_time
    (stats : Stats.t) (game : Game.t) (user : User.t) (w : World) (q : Qc) (s : number) :
  Stats.time stats = Some (Num q) → (0 < q)%Qc →
  Stats.speed stats = Some s → s ≠ NaN →
  let user' := (UserSchema.updateStatistics stats game user w).1.2 in
  User.bestTime user' = Some (min (or_else (User.bestTime user) PosInf) (Num q)) ∧
  User.bestSpeed user' = Some (max (or_else (User.bestSpeed user) (ofZ 0)) s) ∧
  User.totalGames user' = add (User.totalGames user) (ofZ 1) ∧
  User.totalMultiplayerGames user'
  = (if Game.isSinglePlayer game then User.totalMultiplayerGames user
     else add (User.totalMultiplayerGames user) (ofZ 1)) ∧
  User.averageTime user'
  = div (add (mul (User.averageTime user) (sub (User.totalGames user') (ofZ 1))) (Num q))
        (User.totalGames user') ∧
  User.averageSpeed user'
  = div (add (mul (User.averageSpeed user) (sub (User.totalGames user') (ofZ 1))) s)
        (User.totalGames user').
Proof.
  intros Ht Hq Hs Hnan user'. subst user'.
  unfold UserSchema.updateStatistics.
  rewrite objectId_strict_eq_string, Ht, Hs.
  rewrite (or_else_positive q PosInf Hq), (or_else_zero_default s Hnan).
  destruct (saveUser (faults w)), (Game.isSinglePlayer game); repeat split.
Qed.

(** The veteran finishes a multi-player race in 12 s at 100 words per
    minute. *)
Lemma user_statistics_after_positive_time_witness :
  Stats.time (scored 12000 100) = Some (ofZ 12000) ∧
  Stats.speed (scored 12000 100) = Some (ofZ 100) ∧
  User.bestTime
    (UserSchema.updateStatistics (scored 12000 100) racing veteran finishLine).1.2
  = Some (min (ofZ 5000) (ofZ 12000)) ∧
  User.totalGames
    (UserSchema.updateStatistics (scored 12000 100) racing veteran finishLine).1.2
  = add (ofZ 1) (ofZ 1).
Proof.
  split; [reflexivity|]. split; [reflexivity|].
  assert (Hq : (0 < Q2Qc (inject_Z 12000))%Qc) by (by vm_compute).
  assert (Hs : ofZ 100 ≠ NaN) by discriminate.
  destruct (user_statistics_after_positive_time (scored 12000 100) racing veteran
              finishLine (Q2Qc (inject_Z 12000)) (ofZ 100) eq_refl Hq eq_refl Hs)
    as (Hbest & _ & Htotal & _).
  exact (conj Hbest Htotal).
Defined.

End Statistics.

(** ** More on the timeout registry and the state machine *)

Section Reconcile.

Import GameSchema.

Lemma set_gameTimeouts_same (w : World) : set_gameTimeouts (gameTimeouts w) w = w.
Proof. by destruct w. Qed.

Lemma set_now_same (w : World) : set_now (now w) w = w.
Proof. by destruct w. Qed.

(** X5. The registry debounces: arming a lobby's timeout again replaces
    the pending one, so only the latest delay and callback remain; removing
    after arming is removing; removing where nothing is pending changes
    nothing; and neither operation touches the timeout of another lobby. *)
Theorem gameTimeouts_latest_wins (g : string) (t1 t2 : Z) (f1 f2 : TimeoutAction) (w : World) :
  gameTimeouts.create g t2 f2 (gameTimeouts.create g t1 f1 w) = gameTimeouts.create g t2 f2 w ∧
  gameTimeouts.remove g (gameTimeouts.create g t1 f1 w) = gameTimeouts.remove g w ∧
  gameTimeouts.create g t1 f1 (gameTimeouts.remove g w) = gameTimeouts.create g t1 f1 w ∧
  (gameTimeouts w !! g = None → gameTimeouts.remove g w = w) ∧
  (∀ g', g' ≠ g →
     gameTimeouts (gameTimeouts.create g t1 f1 w) !! g' = gameTimeouts w !! g' ∧
     gameTimeouts (gameTimeouts.remove g w) !! g' = gameTimeouts w !! g').
Proof.
  unfold gameTimeouts.create, gameTimeouts.remove, set_gameTimeouts. simpl.
  split; [by rewrite insert_insert_eq|].
  split; [by rewrite delete_insert_eq|].
  split; [by rewrite insert_delete_eq|].
  split.
  - intros Hnone. rewrite delete_id by done. by destruct w.
  - intros g' Hne. by rewrite lookup_insert_ne, lookup_delete_ne.
Qed.

(** [setupTiming] changes the world in its timeouts only; reconciling
    also lets the clock move on. *)
Lemma setupTiming_frame game w :
  (setupTiming game w).2 = set_gameTimeouts (gameTimeouts (setupTiming game w).2) w.
Proof.
  unfold setupTiming. repeat case_match; simpl; by rewrite ?set_gameTimeouts_same.
Qed.

Lemma setupTiming_now game w : now (setupTiming game w).2 = now w.
Proof. unfold setupTiming. repeat case_match; reflexivity. Qed.

Lemma deduceGameState_frame game w :
  (deduceGameState game w).2
  = set_gameTimeouts (gameTimeouts (deduceGameState game w).2)
      (set_now (now (deduceGameState game w).2) w).
Proof.
  unfold deduceGameState; cbv zeta;
    rewrite ?deduceGameStateSinglePlayer_eq, ?deduceGameStateMultiPlayer_eq; unfold finish.
  repeat case_match; simpl; rewrite ?set_now_same, ?set_gameTimeouts_same; try done;
    match goal with
    | |- context [setupTiming ?g ?w] =>
        rewrite (setupTiming_now g w); simpl; rewrite ?set_now_same;
        apply (setupTiming_frame g w)
    end.
Qed.

Lemma deduceGameState_now game w :
  now (deduceGameState game w).2 = now w ∨
  now (deduceGameState game w).2 = now w + lag w.
Proof.
  unfold deduceGameState; cbv zeta;
    rewrite ?deduceGameStateSinglePlayer_eq, ?deduceGameStateMultiPlayer_eq; unfold finish.
  repeat case_match; simpl; rewrite ?setupTiming_now; simpl; tauto.
Qed.

Lemma setupTiming_others game w (k : string) :
  k ≠ Game.id game →
  gameTimeouts (setupTiming game w).2 !! k = gameTimeouts w !! k.
Proof.
  intros Hk. unfold setupTiming, gameTimeouts.create.
  repeat case_match; simpl; by rewrite ?lookup_insert_ne.
Qed.

Lemma setupTiming_keeps game w :
  let game' := (setupTiming game w).1 in
  Game._id game' = Game._id game ∧
  Game.players game' = Game.players game ∧
  Game.playerNames game' = Game.playerNames game ∧
  Game.numPlayers game' = Game.numPlayers game ∧
  Game.maxPlayers game' = Game.maxPlayers game ∧
  Game.isSinglePlayer game' = Game.isSinglePlayer game ∧
  Game.winner game' = Game.winner game ∧
  Game.winnerTime game' = Game.winnerTime game ∧
  Game.winnerSpeed game' = Game.winnerSpeed game ∧
  Game.isComplete game' = Game.isComplete game.
Proof. unfold setupTiming. repeat case_match; done. Qed.

Lemma deduceGameState_others game w (k : string) :
  k ≠ Game.id game →
  gameTimeouts (deduceGameState game w).2 !! k = gameTimeouts w !! k.
Proof.
  intros Hk.
  unfold deduceGameState; cbv zeta;
    rewrite ?deduceGameStateSinglePlayer_eq, ?deduceGameStateMultiPlayer_eq; unfold finish,
    gameTimeouts.remove.
  repeat case_match; simpl; rewrite ?lookup_delete_ne by done; try done;
    match goal with
    | |- context [setupTiming ?g ?w] => by rewrite (setupTiming_others g w k)
    end.
Qed.

(** Reconciling leaves the identity, the roster, the counter, the
    capacity, the mode and the winner record of the lobby alone, and never
    clears [isComplete]. *)
Lemma deduceGameState_keeps (game : Game.t) (w : World) :
  Game._id (deduceGameState game w).1 = Game._id game ∧
  Game.players (deduceGameState game w).1 = Game.players game ∧
  Game.playerNames (deduceGameState game w).1 = Game.playerNames game ∧
  Game.numPlayers (deduceGameState game w).1 = Game.numPlayers game ∧
  Game.maxPlayers (deduceGameState game w).1 = Game.maxPlayers game ∧
  Game.isSinglePlayer (deduceGameState game w).1 = Game.isSinglePlayer game ∧
  Game.winner (deduceGameState game w).1 = Game.winner game ∧
  Game.winnerTime (deduceGameState game w).1 = Game.winnerTime game ∧
  Game.winnerSpeed (deduceGameState game w).1 = Game.winnerSpeed game ∧
  (Game.isComplete game = true → Game.isComplete (deduceGameState game w).1 = true).
Proof.
  unfold deduceGameState; cbv zeta;
    rewrite ?deduceGameStateSinglePlayer_eq, ?deduceGameStateMultiPlayer_eq; unfold finish.
  repeat case_match; simpl; try done;
    match goal with
    | |- context [setupTiming ?g ?w] =>
        destruct (setupTiming_keeps g w)
          as (-> & -> & -> & -> & -> & -> & -> & -> & -> & ->)
    end; done.
Qed.

(** On a started lobby reconciling keeps [started], [status] and the
    snapshot [startingPlayers]. *)
Lemma deduceGameState_started (game : Game.t) (w : World) :
  Game.started game = true →
  Game.started (deduceGameState game w).1 = true ∧
  Game.status (deduceGameState game w).1 = Game.status game ∧
  Game.startingPlayers (deduceGameState game w).1 = Game.startingPlayers game.
Proof.
  intros Hstarted.
  unfold deduceGameState; cbv zeta;
    rewrite ?deduceGameStateSinglePlayer_eq, ?deduceGameStateMultiPlayer_eq; unfold finish.
  repeat case_bool_decide; simpl; rewrite ?Hstarted; simpl;
    destruct (Game.isSinglePlayer game); simpl; rewrite ?Hstarted; done.
Qed.

(** X6. What reconciling never does.  It leaves the identity, the
    roster, the counter, the capacity, the mode and the winner record
    ([winner], [winnerTime], [winnerSpeed]) of the lobby alone; it never
    clears [isComplete]; on a started lobby it keeps [started], [status]
    and the snapshot [startingPlayers]; in the world it changes nothing but
    the timeout registry, and there only the entry of this lobby, while the
    clock stands or moves on by the lag of one read. *)
Theorem deduceGameState_never (game : Game.t) (w : World) :
  let game' := (deduceGameState game w).1 in
  let w' := (deduceGameState game w).2 in
  Game._id game' = Game._id game ∧
  Game.players game' = Game.players game ∧
  Game.playerNames game' = Game.playerNames game ∧
  Game.numPlayers game' = Game.numPlayers game ∧
  Game.maxPlayers game' = Game.maxPlayers game ∧
  Game.isSinglePlayer game' = Game.isSinglePlayer game ∧
  Game.winner game' = Game.winner game ∧
  Game.winnerTime game' = Game.winnerTime game ∧
  Game.winnerSpeed game' = Game.winnerSpeed game ∧
  (Game.isComplete game = true → Game.isComplete game' = true) ∧
  (Game.started game = true →
     Game.started game' = true ∧ Game.status game' = Game.status game ∧
     Game.startingPlayers game' = Game.startingPlayers game) ∧
  w' = set_gameTimeouts (gameTimeouts w') (set_now (now w') w) ∧
  (now w' = now w ∨ now w' = now w + lag w) ∧
  (∀ k, k ≠ Game.id game → gameTimeouts w' !! k = gameTimeouts w !! k).
Proof.
  cbv zeta.
  destruct (deduceGameState_keeps game w) as (? & ? & ? & ? & ? & ? & ? & ? & ? & ?).
  repeat (split; [done|]).
  split; [apply deduceGameState_started|].
  split; [apply deduceGameState_frame|].
  split; [apply deduceGameState_now|by intros; apply deduceGameState_others].
Qed.

(** X7. A multi-player lobby that reaches quorum begins to count down:
    not started, not starting, with more than one player, it becomes
    [starting] with [startTime] 20 s after the clock is read.  [setupTiming]
    reads the clock again, [lag] later.  If the lobby is still joinable and
    not full and the lag is below 15 s, the timeout that closes joining is
    armed at [15001 - lag] ms; if it is not joinable or full and the lag is
    below 20 s, joining is closed and the timeout that starts the game is
    armed at [20001 - lag] ms. *)
Theorem deduceGameState_quorum (game : Game.t) (w : World) :
  Game.isSinglePlayer game = false →
  Game.started game = false →
  Game.starting game = false →
  Game.numPlayers game > 1 →
  let game' := (deduceGameState game w).1 in
  let w' := (deduceGameState game w).2 in
  Game.starting game' = true ∧
  Game.startTime game' = Some (now w + 20000) ∧
  (Game.isJoinable game = true → Game.numPlayers game ≠ Game.maxPlayers game →
   lag w < 15000 →
     Game.started game' = false ∧
     Game.isJoinable game' = true ∧
     gameTimeouts w' !! Game.id game
     = Some {| delay := 15001 - lag w; action := CloseJoining |}) ∧
  (Game.isJoinable game = false ∨ Game.numPlayers game = Game.maxPlayers game →
   lag w < 20000 →
     Game.started game' = false ∧
     Game.isJoinable game' = false ∧
     gameTimeouts w' !! Game.id game
     = Some {| delay := 20001 - lag w; action := StartGame |}).
Proof.
  intros Hmulti Hstarted Hstarting Hn. cbv zeta.
  unfold deduceGameState.
  rewrite bool_decide_eq_false_2 by lia.
  assert (Hleft : ∀ g, Game.startTime g = Some (now w + GAME_MULTI_PLAYER_WAIT_TIME * 1000) →
            timeLeft g (set_now (now w + lag w) w) = 20000 - lag w).
  { intros g Hg. unfold timeLeft, GAME_MULTI_PLAYER_WAIT_TIME in *. rewrite Hg. simpl. lia. }
  assert (Hclose : (20000 - lag w) - GAME_TIME_JOIN_CUTOFF_MS + 1 = 15001 - lag w)
    by (unfold GAME_TIME_JOIN_CUTOFF_MS; lia).
  assert (Hstart : (20000 - lag w) + 1 = 20001 - lag w) by lia.
  case_bool_decide as Hfull; simpl; rewrite Hmulti;
    rewrite deduceGameStateMultiPlayer_eq; simpl; rewrite Hstarted, Hstarting; simpl;
    rewrite (bool_decide_eq_true_2 (Game.numPlayers game > 1)) by done;
    unfold setupTiming; rewrite Hleft by done; simpl.
  - case_bool_decide as Hpos; simpl; (split; [done|]); (split; [done|]);
      (split; [done|]); intros _ Hlag; [|lia].
    unfold gameTimeouts.create. simpl. by rewrite lookup_insert_eq, Hstart.
  - destruct (Game.isJoinable game) eqn:Hj; simpl.
    + case_bool_decide as Hcut; simpl; (split; [done|]); (split; [done|]); split.
      * intros _ _ Hlag. unfold gameTimeouts.create. simpl.
        by rewrite lookup_insert_eq, Hclose.
      * intros [?|?]; done.
      * intros _ _ Hlag. unfold GAME_TIME_JOIN_CUTOFF_MS in Hcut. lia.
      * intros [?|?]; done.
    + case_bool_decide as Hpos; simpl; (split; [done|]); (split; [done|]);
        (split; [done|]); intros _ Hlag; [|lia].
      unfold gameTimeouts.create. simpl. by rewrite lookup_insert_eq, Hstart.
Qed.

(** X8. A multi-player lobby that drops below quorum while counting
    down aborts the start: with one player left, not started and
    [starting], it stops [starting], forgets its [startTime], is joinable
    again and its pending timeout is removed; it is not completed. *)
Theorem deduceGameState_abort (game : Game.t) (w : World) :
  Game.isSinglePlayer game = false →
  Game.started game = false →
  Game.starting game = true →
  Game.numPlayers game = 1 →
  let game' := (deduceGameState game w).1 in
  let w' := (deduceGameState game w).2 in
  Game.starting game' = false ∧
  Game.startTime game' = None ∧
  Game.isJoinable game' = true ∧
  Game.isComplete game' = Game.isComplete game ∧
  gameTimeouts w' !! Game.id game = None.
Proof.
  intros Hmulti Hstarted Hstarting Hn. cbv zeta.
  unfold deduceGameState.
  rewrite bool_decide_eq_false_2 by lia.
  case_bool_decide; simpl; rewrite Hmulti;
    rewrite deduceGameStateMultiPlayer_eq; simpl; rewrite Hstarted, Hstarting; simpl;
    rewrite (bool_decide_eq_true_2 (Game.numPlayers game < 2)) by lia; simpl;
    repeat split; apply lookup_delete_eq.
Qed.

End Reconcile.

Section Firing.

Import GameSchema.

Lemma setupTiming_isNew game w : Game.isNew (setupTiming game w).1 = Game.isNew game.
Proof. unfold setupTiming. repeat case_match; done. Qed.

Lemma deduceGameState_isNew game w : Game.isNew (deduceGameState game w).1 = Game.isNew game.
Proof.
  unfold deduceGameState; cbv zeta;
    rewrite ?deduceGameStateSinglePlayer_eq, ?deduceGameStateMultiPlayer_eq; unfold finish.
  repeat case_match; simpl; try done;
    match goal with
    | |- context [setupTiming ?g ?w] => by rewrite (setupTiming_isNew g w)
    end.
Qed.

Lemma deduceGameState_id game w : Game.id (deduceGameState game w).1 = Game.id game.
Proof.
  unfold Game.id. by destruct (deduceGameState_keeps game w) as (-> & _).
Qed.

(** How [updateGameState] runs when the game is saved. *)
Lemma updateGameState_run game w :
  saveGame (faults w) = None →
  let game1 := (deduceGameState game w).1 in
  let w1 := (deduceGameState game w).2 in
  let game' := Game.set_isNew false game1 in
  ∃ w', updateGameState game w = (Ok game', game', w') ∧
        games w' = <[Game.id game := game']> (games w) ∧
        gameTimeouts w' = gameTimeouts w1 ∧
        users w' = users w ∧ faults w' = faults w ∧ now w' = now w1 ∧
        logged w' = logged w ∧ statistics w' = statistics w ∧
        emitted w'
        = (if Game.isNew game then [GamesNew game']
           else if Game.isComplete game1 then [GamesRemove game']
           else if isModified w game1 then [GamesUpdate game'] else []) ++ emitted w.
Proof.
  intros Hsave. cbv zeta. unfold updateGameState.
  pose proof (deduceGameState_frame game w) as Hframe.
  pose proof (deduceGameState_isNew game w) as Hnew.
  pose proof (deduceGameState_id game w) as Hid.
  destruct (deduceGameState game w) as [game1 w1]. simpl in *.
  rewrite Hframe. simpl. rewrite Hsave. unfold save. simpl.
  change (Game.id (Game.set_isNew false game1)) with (Game.id game1).
  rewrite Hid, Hnew.
  eexists. split; [reflexivity|].
  repeat case_match; simpl; done.
Qed.

(** X9. What [updateGameState] stores and publishes.  When the save
    fails the callback gets the error "error saving user", nothing is
    stored and nothing is published, but the timeouts reconciling armed
    stay armed.  When the save succeeds the reconciled document, no longer
    new, is what the callback gets and what the store holds under the
    lobby's id; no other lobby of the store is touched; at most one event
    is published, it is "games:new" for a new document, also when the lobby
    is complete, and "games:remove" for a saved lobby that is complete. *)
Theorem updateGameState_outcome (game : Game.t) (w : World) :
  let game1 := (deduceGameState game w).1 in
  let w1 := (deduceGameState game w).2 in
  (∀ err, saveGame (faults w) = Some err →
     ∃ w', updateGameState game w = (Fail "error saving user", game1, w') ∧
           games w' = games w ∧ emitted w' = emitted w ∧
           logged w' = err :: logged w ∧
           gameTimeouts w' = gameTimeouts w1) ∧
  (saveGame (faults w) = None →
     ∃ game' w', updateGameState game w = (Ok game', game', w') ∧
           game' = Game.set_isNew false game1 ∧
           games w' !! Game.id game = Some game' ∧
           (∀ k, k ≠ Game.id game → games w' !! k = games w !! k) ∧
           gameTimeouts w' = gameTimeouts w1 ∧
           (emitted w' = emitted w ∨ ∃ e, emitted w' = e :: emitted w) ∧
           (Game.isNew game = true → emitted w' = GamesNew game' :: emitted w) ∧
           (Game.isNew game = false → Game.isComplete game1 = true →
              emitted w' = GamesRemove game' :: emitted w)).
Proof.
  cbv zeta. split.
  - intros err Hsave. unfold updateGameState.
    pose proof (deduceGameState_frame game w) as Hframe.
    destruct (deduceGameState game w) as [game1 w1]. simpl in *.
    rewrite Hframe. simpl. rewrite Hsave. eexists. split; [reflexivity|]. done.
  - intros Hsave.
    destruct (updateGameState_run game w Hsave)
      as (w' & Hrun & Hgames & Htimers & _ & _ & _ & _ & _ & Hemitted).
    eexists _, w'. split; [exact Hrun|]. split; [done|].
    split; [by rewrite Hgames, lookup_insert_eq|].
    split; [by intros k Hk; rewrite Hgames, lookup_insert_ne|].
    split; [done|]. rewrite Hemitted.
    split; [repeat case_match; simpl; eauto|].
    split; [by intros ->|]. by intros -> ->.
Qed.

(** X10. When the timeout that starts the game fires and the lobby is
    found, the stored lobby is started: [started] is set, its status is
    "ingame", [startingPlayers] is the roster of that moment, joining is
    closed, and no timeout of the lobby is pending afterwards. *)
Theorem fire_starts_the_game (g : string) (game : Game.t) (t : Timeout) (w : World) :
  gameTimeouts w !! g = Some t →
  action t = StartGame →
  findGame (faults w) = None →
  saveGame (faults w) = None →
  games w !! g = Some game →
  Game.id game = g →
  ∃ game' w',
    fire g w = (Returned, w') ∧
    games w' !! g = Some game' ∧
    Game.started game' = true ∧
    Game.status game' = Some "ingame" ∧
    Game.startingPlayers game' = Game.players game ∧
    Game.players game' = Game.players game ∧
    Game.isJoinable game' = false ∧
    gameTimeouts w' !! g = None.
Proof.
  intros Ht Hact Hfind Hsave Hgame Hid.
  unfold fire. rewrite Ht, Hact. unfold runTimeout, findById.
  change (faults (gameTimeouts.remove g w)) with (faults w).
  change (games (gameTimeouts.remove g w)) with (games w).
  rewrite Hfind. simpl. rewrite Hgame.
  set (w0 := gameTimeouts.remove g w).
  destruct (updateGameState_run (start game) w0 Hsave)
    as (w' & -> & Hgames & Htimers & _).
  assert (Hid' : Game.id (start game) = g) by done.
  destruct (deduceGameState_keeps (start game) w0) as (_ & Hplayers & _).
  destruct (deduceGameState_started (start game) w0 eq_refl) as (Hs & Hstatus & Hsnapshot).
  eexists _, w'. split; [reflexivity|].
  rewrite Hgames, Hid', lookup_insert_eq. split; [reflexivity|].
  simpl. rewrite Hs, Hstatus, Hsnapshot, Hplayers. repeat split.
  - unfold deduceGameState; cbv zeta;
    rewrite ?deduceGameStateSinglePlayer_eq, ?deduceGameStateMultiPlayer_eq; unfold finish.
    repeat case_match; simpl in *; done.
  - rewrite Htimers.
    unfold deduceGameState; cbv zeta;
    rewrite ?deduceGameStateSinglePlayer_eq, ?deduceGameStateMultiPlayer_eq; unfold finish.
    repeat case_match; simpl in *; try done;
      rewrite ?Hid'; unfold gameTimeouts.remove; simpl; by rewrite ?lookup_delete_eq.
Qed.

End Firing.

Section FiringClose.

Import GameSchema.

(** X11. When the timeout that closes joining fires on a lobby that is
    counting down (found in the store, not started, [starting], with its
    quorum of players), the stored lobby is no longer joinable; if time
    remains until [startTime] the timeout that starts the game is armed at
    the remaining time plus 1 ms, and if none remains the game is started
    at once and nothing is pending. *)
Theorem fire_closes_joining (g : string) (game : Game.t) (t : Timeout) (w : World) (s : Z) :
  gameTimeouts w !! g = Some t →
  action t = CloseJoining →
  findGame (faults w) = None →
  saveGame (faults w) = None →
  games w !! g = Some game →
  Game.id game = g →
  Game.started game = false →
  Game.starting game = true →
  Game.startTime game = Some s →
  Game.isSinglePlayer game = true ∧ Game.numPlayers game ≠ 0 ∨
  Game.isSinglePlayer game = false ∧ 2 ≤ Game.numPlayers game →
  ∃ game' w',
    fire g w = (Returned, w') ∧
    games w' !! g = Some game' ∧
    Game.isJoinable game' = false ∧
    (s - now w > 0 →
       Game.started game' = false ∧
       gameTimeouts w' !! g = Some {| delay := s - now w + 1; action := StartGame |}) ∧
    (s - now w ≤ 0 →
       Game.started game' = true ∧ Game.status game' = Some "ingame" ∧
       gameTimeouts w' !! g = None).
Proof.
  intros Ht Hact Hfind Hsave Hgame Hid Hstarted Hstarting Hs Hmode.
  unfold fire. rewrite Ht, Hact. unfold runTimeout, findById.
  change (faults (gameTimeouts.remove g w)) with (faults w).
  change (games (gameTimeouts.remove g w)) with (games w).
  rewrite Hfind. simpl. rewrite Hgame.
  set (w0 := gameTimeouts.remove g w).
  destruct (updateGameState_run (Game.set_isJoinable false game) w0 Hsave)
    as (w' & -> & Hgames & Htimers & _).
  assert (Hid' : Game.id (Game.set_isJoinable false game) = g) by done.
  eexists _, w'. split; [reflexivity|].
  rewrite Hgames, Hid', lookup_insert_eq. split; [reflexivity|].
  rewrite Htimers. clear Hgames Htimers.
  assert (Hreconciled :
    deduceGameState (Game.set_isJoinable false game) w0
    = setupTiming (Game.set_isJoinable false game) w0).
  { unfold deduceGameState.
    rewrite bool_decide_eq_false_2 by (simpl; lia).
    assert (Hfull : (if bool_decide (Game.numPlayers (Game.set_isJoinable false game)
                                     = Game.maxPlayers (Game.set_isJoinable false game))
                     then Game.set_isJoinable false (Game.set_isJoinable false game)
                     else Game.set_isJoinable false game)
                    = Game.set_isJoinable false game) by (by case_bool_decide).
    rewrite Hfull. simpl.
    destruct Hmode as [[-> _]|[-> Hn]].
    - rewrite deduceGameStateSinglePlayer_eq. simpl. by rewrite Hstarted, Hstarting.
    - rewrite deduceGameStateMultiPlayer_eq. simpl. rewrite Hstarted, Hstarting. simpl.
      by rewrite bool_decide_eq_false_2 by lia. }
  rewrite Hreconciled. unfold setupTiming, timeLeft. simpl. rewrite Hs.
  change (now w0) with (now w).
  case_bool_decide as Hleft; simpl.
  - split; [done|]. split; [|lia].
    intros _. split; [done|]. rewrite <- Hid. apply lookup_insert_eq.
  - split; [done|]. split; [lia|].
    intros _. split; [done|]. split; [done|]. apply lookup_delete_eq.
Qed.

End FiringClose.

Section Lifecycle.

Import GameSchema UserSchema.

(** How [joinGame] runs when the join is allowed and both saves succeed. *)
Lemma joinGame_run game user w :
  getJoinError game user = None →
  saveGame (faults w) = None → saveUser (faults w) = None →
  let user' := User.set_currentGame (Some (Game._id game)) user in
  ∃ game' w',
    joinGame game user w = (Ok game', user', game', w') ∧
    (addPlayer user' game w).1 = (Ok game', game') ∧
    games w' = <[Game.id game := game']> (games w) ∧
    users w' = <[User.id user := user']> (users w) ∧
    gameTimeouts w' = gameTimeouts (addPlayer user' game w).2 ∧
    faults w' = faults w ∧ now w' = now (addPlayer user' game w).2 ∧
    emitted w' = UsersUpdate user' :: emitted (addPlayer user' game w).2.
Proof.
  intros Herr Hsg Hsu. cbv zeta. unfold joinGame. rewrite Herr.
  unfold addPlayer.
  match goal with
  | |- context [updateGameState ?g w] =>
      destruct (updateGameState_run g w Hsg)
        as (w1 & Hrun & Hgames & Htimers & Husers & Hfaults & Hnow & _);
      pose proof (deduceGameState_id g w) as Hid
  end.
  rewrite Hrun, Hfaults, Hsu.
  eexists _, _. split; [reflexivity|]. simpl.
  rewrite Husers, Hgames. repeat split; done.
Qed.


(** Reconciling a single-player lobby that holds its player and is
    neither starting nor started, when less than the 5 s wait passes
    between the two reads of the clock. *)
Lemma deduceGameState_single_start game w :
  Game.isSinglePlayer game = true →
  Game.started game = false →
  Game.starting game = false →
  Game.numPlayers game ≠ 0 →
  Game.isJoinable game = false ∨ Game.numPlayers game = Game.maxPlayers game →
  lag w < 5000 →
  deduceGameState game w
  = (Game.set_startTime (Some (now w + 5000))
       (Game.set_starting true (Game.set_isJoinable false game)),
     gameTimeouts.create (Game.id game) (5001 - lag w) StartGame
       (set_now (now w + lag w) w)).
Proof.
  intros Hsingle Hstarted Hstarting Hn Hclosed Hlag.
  unfold deduceGameState. rewrite bool_decide_eq_false_2 by done.
  assert (Hfull : (if bool_decide (Game.numPlayers game = Game.maxPlayers game)
                   then Game.set_isJoinable false game else game)
                  = Game.set_isJoinable false game).
  { case_bool_decide as Hfull; [done|].
    destruct Hclosed as [Hj|?]; [|done]. destruct game; simpl in *; by subst. }
  rewrite Hfull. simpl. rewrite Hsingle.
  rewrite deduceGameStateSinglePlayer_eq. simpl. rewrite Hstarted, Hstarting. simpl.
  unfold setupTiming, timeLeft. simpl.
  rewrite bool_decide_eq_true_2 by (unfold GAME_SINGLE_PLAYER_WAIT_TIME; lia).
  unfold GAME_SINGLE_PLAYER_WAIT_TIME.
  replace (now w + 5 * 1000 - (now w + lag w) + 1) with (5001 - lag w) by lia.
  by replace (now w + 5 * 1000) with (now w + 5000) by lia.
Qed.

(** X12. Creating a single-player game.  A user who is in no game gets
    a new lobby of their own, stored under the fresh id: they are its
    creator and its only player, the capacity is 1, the lobby is neither
    joinable nor viewable, it is [starting] with [startTime] 5 s after the
    clock is read.  [setupTiming] reads the clock again, [lag] later:
    when the lag is below 5 s the game is not started yet and the timeout
    that starts it is armed at [5001 - lag] ms.  The user's [currentGame]
    is the new lobby, the user is stored, and the events published are
    "games:new" and then "users:update". *)
Theorem createGame_single_player (opts : Opts) (user : User.t) (w : World) :
  User.currentGame user = None →
  opt_isSinglePlayer opts = true →
  saveGame (faults w) = None → saveUser (faults w) = None →
  lag w < 5000 →
  ∃ game' user' w',
    createGame opts user w = (Ok game', user', w') ∧
    Game._id game' = freshId w ∧
    Game.creator game' = Some (User._id user) ∧
    Game.players game' = [User._id user] ∧
    Game.playerNames game' = [User.username user] ∧
    Game.numPlayers game' = 1 ∧
    Game.maxPlayers game' = 1 ∧
    Game.isJoinable game' = false ∧
    Game.isViewable game' = false ∧
    Game.isComplete game' = false ∧
    Game.starting game' = true ∧
    Game.started game' = false ∧
    Game.startTime game' = Some (now w + 5000) ∧
    Game.status game' = Some "waiting" ∧
    gameTimeouts w' !! toHexString (freshId w)
    = Some {| delay := 5001 - lag w; action := StartGame |} ∧
    games w' !! toHexString (freshId w) = Some game' ∧
    user' = User.set_currentGame (Some (freshId w)) user ∧
    users w' !! User.id user = Some user' ∧
    emitted w' = UsersUpdate user' :: GamesNew game' :: emitted w.
Proof.
  intros Hcurrent Hsingle Hsg Hsu Hlag. unfold createGame.
  rewrite bool_decide_eq_false_2 by (rewrite Hcurrent; by intros [? ?]).
  assert (Hmode : Game.isSinglePlayer
            (Game.set_creator (Some (User._id user)) (extend opts (newGame (freshId w))))
            = true) by done.
  rewrite Hmode.
  set (game0 := beginSinglePlayer _).
  assert (Herr : getJoinError game0 user = None).
  { unfold getJoinError. simpl. by rewrite Hsingle. }
  destruct (joinGame_run game0 user w Herr Hsg Hsu)
    as (game' & w' & -> & Hadd & Hgames & Husers & Htimers & _ & _ & Hemitted).
  unfold addPlayer in *.
  match type of Hadd with
  | context [updateGameState ?g w] =>
      destruct (updateGameState_run g w Hsg)
        as (w1 & Hrun & _ & Htimers1 & _ & _ & _ & _ & _ & Hemitted1);
      rewrite Hrun in Hadd, Htimers, Hemitted;
      rewrite (deduceGameState_single_start g w) in Hrun, Hadd, Htimers1, Hemitted1
        by (simpl; auto; lia)
  end.
  simpl in Hadd. injection Hadd as <-.
  eexists _, _, w'. split; [reflexivity|].
  simpl in *.
  rewrite Hgames, Husers, Htimers, Htimers1, Hemitted, Hemitted1.
  repeat split; try done; try apply lookup_insert_eq.
Qed.


(** Reconciling a multi-player lobby that waits with a single player. *)
Lemma deduceGameState_waiting game w :
  Game.isSinglePlayer game = false →
  Game.started game = false →
  Game.starting game = false →
  Game.numPlayers game = 1 →
  Game.maxPlayers game ≠ 1 →
  deduceGameState game w = (game, w).
Proof.
  intros Hmulti Hstarted Hstarting Hn Hmax.
  unfold deduceGameState. rewrite bool_decide_eq_false_2 by lia.
  rewrite bool_decide_eq_false_2 by lia. rewrite Hmulti.
  rewrite deduceGameStateMultiPlayer_eq. rewrite Hstarted, Hstarting. simpl.
  by rewrite bool_decide_eq_false_2 by lia.
Qed.

(** X13. Creating a multi-player game.  A user who is in no game gets a
    new lobby stored under the fresh id, with themselves as creator and
    only player, capacity 4, joinable and viewable, waiting: it is not
    [starting], has no [startTime], and no timeout is armed.  The user's
    [currentGame] is the new lobby and the events published are
    "games:new" and then "users:update". *)
Theorem createGame_multi_player (opts : Opts) (user : User.t) (w : World) :
  User.currentGame user = None →
  opt_isSinglePlayer opts = false →
  saveGame (faults w) = None → saveUser (faults w) = None →
  ∃ game' user' w',
    createGame opts user w = (Ok game', user', w') ∧
    Game._id game' = freshId w ∧
    Game.creator game' = Some (User._id user) ∧
    Game.players game' = [User._id user] ∧
    Game.playerNames game' = [User.username user] ∧
    Game.numPlayers game' = 1 ∧
    Game.maxPlayers game' = GAME_DEFAULT_MAX_PLAYERS ∧
    Game.isJoinable game' = true ∧
    Game.isViewable game' = true ∧
    Game.isComplete game' = false ∧
    Game.starting game' = false ∧
    Game.started game' = false ∧
    Game.startTime game' = None ∧
    Game.status game' = Some "waiting" ∧
    gameTimeouts w' = gameTimeouts w ∧
    games w' !! toHexString (freshId w) = Some game' ∧
    user' = User.set_currentGame (Some (freshId w)) user ∧
    users w' !! User.id user = Some user' ∧
    emitted w' = UsersUpdate user' :: GamesNew game' :: emitted w.
Proof.
  intros Hcurrent Hmulti Hsg Hsu. unfold createGame.
  rewrite bool_decide_eq_false_2 by (rewrite Hcurrent; by intros [? ?]).
  assert (Hmode : Game.isSinglePlayer
            (Game.set_creator (Some (User._id user)) (extend opts (newGame (freshId w))))
            = false) by done.
  rewrite Hmode.
  set (game0 := beginMultiPlayer _).
  assert (Herr : getJoinError game0 user = None) by done.
  destruct (joinGame_run game0 user w Herr Hsg Hsu)
    as (game' & w' & -> & Hadd & Hgames & Husers & Htimers & _ & _ & Hemitted).
  unfold addPlayer in *.
  match type of Hadd with
  | context [updateGameState ?g w] =>
      destruct (updateGameState_run g w Hsg)
        as (w1 & Hrun & _ & Htimers1 & _ & _ & _ & _ & _ & Hemitted1);
      rewrite Hrun in Hadd, Htimers, Hemitted;
      rewrite (deduceGameState_waiting g w) in Hrun, Hadd, Htimers1, Hemitted1 by done
  end.
  simpl in Hadd. injection Hadd as <-.
  eexists _, _, w'. split; [reflexivity|].
  simpl in *.
  rewrite Hgames, Husers, Htimers, Htimers1, Hemitted, Hemitted1.
  repeat split; try done; try apply lookup_insert_eq.
Qed.

(** How [quitCurrentGame] runs when the lobby is found and both saves
    succeed. *)
Lemma quitCurrentGame_run user w (g : ObjectId) game :
  User.currentGame user = Some g →
  games w !! toHexString g = Some game →
  findGame (faults w) = None →
  saveGame (faults w) = None → saveUser (faults w) = None →
  let user' := User.set_currentGame None user in
  ∃ game' w',
    quitCurrentGame user w = (Ok (Some game'), user', w') ∧
    (removePlayer user game w).1 = (Ok game', game') ∧
    games w' = <[Game.id game := game']> (games w) ∧
    users w' = <[User.id user := user']> (users w) ∧
    gameTimeouts w' = gameTimeouts (removePlayer user game w).2 ∧
    emitted w' = emitted (removePlayer user game w).2.
Proof.
  intros Hcurrent Hgame Hfind Hsg Hsu. cbv zeta.
  unfold quitCurrentGame, findById. rewrite Hcurrent, Hfind. simpl. rewrite Hgame.
  unfold removePlayer.
  match goal with
  | |- context [updateGameState ?x w] =>
      destruct (updateGameState_run x w Hsg)
        as (w1 & Hrun & Hgames & Htimers & Husers & Hfaults & _)
  end.
  rewrite Hrun, Hfaults, Hsu.
  eexists _, _. split; [reflexivity|]. simpl.
  rewrite Husers, Hgames. repeat split; done.
Qed.


Lemma updateGameState_keeps_id game w :
  Game._id (updateGameState game w).1.2 = Game._id game.
Proof.
  unfold updateGameState.
  destruct (deduceGameState_keeps game w) as (Hid & _).
  destruct (deduceGameState game w) as [game1 w1]. simpl in Hid.
  by destruct (saveGame (faults w1)).
Qed.

Lemma remove_appended {A : Type} `{EqDecision A} (x : A) (l : list A) :
  x ∉ l → remove x (l ++ [x]) = l.
Proof.
  intros Hx. unfold remove. rewrite filter_app.
  fold (remove x l). rewrite remove_absent by done.
  rewrite filter_cons_False by (intros Hne; by apply Hne). apply app_nil_r.
Qed.

(** X14. Joining and then leaving restores the lobby's membership.  A
    player the lobby admits, whose username is not in it yet, joins and
    then quits: the join sets the player's [currentGame] to the lobby, and
    after the quit the stored lobby has the roster, the names and the
    counter it had before the join, and the stored player has no
    [currentGame]. *)
Theorem join_then_quit_restores_roster (game : Game.t) (user : User.t) (w : World) :
  getJoinError game user = None →
  User.username user ∉ Game.playerNames game →
  0 ≤ Game.numPlayers game →
  findGame (faults w) = None →
  saveGame (faults w) = None → saveUser (faults w) = None →
  ∃ game1 user1 w1 game2 user2 w2,
    joinGame game user w = (Ok game1, user1, game1, w1) ∧
    User.currentGame user1 = Some (Game._id game) ∧
    quitCurrentGame user1 w1 = (Ok (Some game2), user2, w2) ∧
    Game.players game2 = Game.players game ∧
    Game.playerNames game2 = Game.playerNames game ∧
    Game.numPlayers game2 = Game.numPlayers game ∧
    User.currentGame user2 = None ∧
    games w2 !! Game.id game = Some game2 ∧
    users w2 !! User.id user = Some user2.
Proof.
  intros Herr Hname Hn Hfg Hsg Hsu.
  assert (Hid : User._id user ∉ Game.players game).
  { apply getJoinError_None in Herr as [_ Hnotin]. intros Hin. apply Hnotin.
    apply list_elem_of_In. apply (in_map toHexString). by apply list_elem_of_In. }
  destruct (joinGame_run game user w Herr Hsg Hsu)
    as (game1 & w1 & Hjoin & Hadd & Hgames1 & Husers1 & _ & Hfaults1 & _).
  set (user1 := User.set_currentGame (Some (Game._id game)) user) in *.
  destruct (addPlayer_roster user1 game w) as (Hp1 & Hn1 & Hc1).
  pose proof (updateGameState_keeps_id
    (Game.set_numPlayers (Game.numPlayers game + 1)
       (Game.set_playerNames (Game.playerNames game ++ [User.username user1])
          (Game.set_players (Game.players game ++ [User._id user1]) game))) w) as Hid1.
  change (updateGameState _ w) with (addPlayer user1 game w) in Hid1.
  rewrite Hadd in Hp1, Hn1, Hc1, Hid1. simpl in Hp1, Hn1, Hc1, Hid1.
  assert (Hstored : games w1 !! toHexString (Game._id game) = Some game1).
  { rewrite Hgames1. apply lookup_insert_eq. }
  destruct (quitCurrentGame_run user1 w1 (Game._id game) game1 eq_refl Hstored)
    as (game2 & w2 & Hquit & Hremove & Hgames2 & Husers2 & _); try by rewrite Hfaults1.
  destruct (removePlayer_roster user1 game1 w1) as (Hp2 & Hn2 & Hc2).
  rewrite Hremove in Hp2, Hn2, Hc2. simpl in Hp2, Hn2, Hc2.
  exists game1, user1, w1, game2, (User.set_currentGame None user1), w2.
  split; [exact Hjoin|]. split; [done|]. split; [exact Hquit|].
  split; [by rewrite Hp2, Hp1, remove_appended|].
  split; [by rewrite Hn2, Hn1, remove_appended|].
  split; [rewrite Hc2, Hc1; clear -Hn; case_bool_decide; lia|].
  split; [done|]. split.
  - rewrite Hgames2. unfold Game.id. rewrite Hid1. apply lookup_insert_eq.
  - rewrite Husers2. apply lookup_insert_eq.
Qed.

(** X15. The last player to leave completes the lobby.  When a player
    quits a stored lobby whose counter is at most 1, the stored lobby is
    complete, neither viewable nor joinable, its counter is 0, no timeout
    of it stays pending, the stored player has no [currentGame], and a
    lobby that had been saved before publishes "games:remove". *)
Theorem last_player_quit_completes (user : User.t) (w : World) (g : ObjectId) (game : Game.t) :
  User.currentGame user = Some g →
  games w !! toHexString g = Some game →
  Game._id game = g →
  Game.numPlayers game ≤ 1 →
  findGame (faults w) = None →
  saveGame (faults w) = None → saveUser (faults w) = None →
  ∃ game' w',
    quitCurrentGame user w = (Ok (Some game'), User.set_currentGame None user, w') ∧
    Game.isComplete game' = true ∧
    Game.isViewable game' = false ∧
    Game.isJoinable game' = false ∧
    Game.numPlayers game' = 0 ∧
    games w' !! toHexString g = Some game' ∧
    gameTimeouts w' !! toHexString g = None ∧
    users w' !! User.id user = Some (User.set_currentGame None user) ∧
    (Game.isNew game = false → emitted w' = GamesRemove game' :: emitted w).
Proof.
  intros Hcurrent Hgame Hid Hn Hfg Hsg Hsu.
  destruct (quitCurrentGame_run user w g game Hcurrent Hgame Hfg Hsg Hsu)
    as (game' & w' & Hquit & Hremove & Hgames & Husers & Htimers & Hemitted).
  unfold removePlayer in *.
  assert (Hzero : (if bool_decide (Game.numPlayers game ≤ 0) then 0
                   else Game.numPlayers game - 1) = 0)
    by (clear -Hn; case_bool_decide; lia).
  match type of Hremove with
  | context [updateGameState ?x w] =>
      destruct (updateGameState_run x w Hsg)
        as (w1 & Hrun & _ & Htimers1 & _ & _ & _ & _ & _ & Hemitted1);
      assert (Hempty : deduceGameState x w = finish x w)
        by (unfold deduceGameState; rewrite bool_decide_eq_true_2;
            [done | exact Hzero]);
      rewrite Hrun in Hremove, Htimers, Hemitted;
      rewrite Hempty in Hrun, Hremove, Htimers1, Hemitted1
  end.
  simpl in Hremove. injection Hremove as <-.
  exists
    (Game.set_isNew false
       (Game.set_isJoinable false (Game.set_isViewable false (Game.set_isComplete true
          (Game.set_numPlayers
             (if bool_decide (Game.numPlayers game ≤ 0) then 0 else Game.numPlayers game - 1)
             (Game.set_playerNames (remove (User.username user) (Game.playerNames game))
                (Game.set_players (remove (User._id user) (Game.players game)) game))))))), w'.
  split; [exact Hquit|]. simpl in *.
  rewrite Hgames, Husers, Htimers, Htimers1, Hemitted, Hemitted1.
  unfold Game.id. simpl. rewrite Hid.
  repeat split; try done; try apply lookup_insert_eq; try apply lookup_delete_eq.
  by intros ->.
Qed.

End Lifecycle.

Section Dispatch.

Import UserSchema.

(** X16. A prepared action is performed as the operation it names.
    After [prepareIngameAction] stored the action "join" with a lobby that
    is in the store, [performIngameAction] is [joinGame] on that lobby, run
    by the prepared user in the world the preparation left; an action that
    is neither "join" nor "createnew" is refused with "No such action
    type: ..." and a "createnew" for a language key that is not in the
    catalogue with "No such game type: ...", both without changing the
    user, the store or the timeouts. *)
Theorem performIngameAction_dispatch (user : User.t) (w : World) :
  (∀ args g game,
     User.game args = Some g →
     games w !! toHexString g = Some game →
     findGame (faults w) = None → saveUser (faults w) = None →
     ∃ user' w',
       prepareIngameAction "join" args user w = (Ok user', user', w') ∧
       User.isAllowedIngame user' = true ∧
       users w' !! User.id user = Some user' ∧
       performIngameAction user' w'
       = ((joinGame game user' w').1.1.1, (joinGame game user' w').1.1.2,
          (joinGame game user' w').2)) ∧
  (User.ingameAction user ≠ Some "join" → User.ingameAction user ≠ Some "createnew" →
     performIngameAction user w
     = (Fail ("No such action type: " +:+ default "undefined" (User.ingameAction user)),
        user, w)) ∧
  (∀ key, User.ingameAction user = Some "createnew" →
     User.lang (User.ingameArgs user) = Some key →
     langs w !! key = None →
     ∃ w', performIngameAction user w = (Fail ("No such game type: " +:+ key), user, w') ∧
           users w' = users w ∧ games w' = games w ∧ gameTimeouts w' = gameTimeouts w ∧
           emitted w' = emitted w).
Proof.
  split; [|split].
  - intros args g game Hg Hgame Hfind Hsave.
    unfold prepareIngameAction. rewrite Hsave.
    eexists _, _. split; [reflexivity|]. split; [reflexivity|].
    split; [apply lookup_insert_eq|].
    unfold performIngameAction, findById. simpl.
    rewrite Hfind, Hg. simpl. rewrite Hgame.
    by destruct (joinGame _ _ _) as [[[? ?] ?] ?].
  - intros Hjoin Hcreate. unfold performIngameAction.
    by rewrite !bool_decide_eq_false_2.
  - intros key Haction Hlang Hmissing. unfold performIngameAction, findById.
    rewrite Haction, Hlang. simpl.
    destruct (findLang (faults w)); simpl; rewrite ?Hmissing; eexists; split; done.
Qed.

End Dispatch.

Section Scores.

(** The fields [GameSchema.updateStatistics] leaves in the document. *)
Lemma game_updateStatistics_fields stats game w :
  let test :=
    negb (strict_eq_field (Game.winnerTime game) (Stats.time stats))
    && strict_eq_field
         (Some (min (or_else (Game.winnerTime game) PosInf)
                    (or_else (Stats.time stats) PosInf)))
         (Stats.time stats) in
  let game' := (GameSchema.updateStatistics stats game w).1.2 in
  (test = true →
     Game.winner game' = Some (Stats.player stats) ∧
     Game.winnerTime game' = Stats.time stats ∧
     Game.winnerSpeed game' = Stats.speed stats) ∧
  (test = false → game' = game).
Proof.
  cbv zeta. unfold GameSchema.updateStatistics.
  destruct (negb _ && _); split; try done; intros _;
    destruct (saveGame (faults w)); done.
Qed.

(** X17. The fastest result takes the winner record in either order of
    arrival.  In a lobby without a winner time, two results with positive
    finite times [q1 < q2] leave the player, the time and the speed of the
    faster one as the winner record, whether the faster or the slower one
    is submitted first. *)
Theorem winner_is_fastest_in_any_order
    (fast slow : Stats.t) (game : Game.t) (w1 w2 : World) (q1 q2 : Qc) :
  Stats.time fast = Some (Num q1) →
  Stats.time slow = Some (Num q2) →
  (0 < q1)%Qc → (q1 < q2)%Qc →
  Game.winnerTime game = None →
  let fastFirst :=
    (GameSchema.updateStatistics slow
       (GameSchema.updateStatistics fast game w1).1.2 w2).1.2 in
  let slowFirst :=
    (GameSchema.updateStatistics fast
       (GameSchema.updateStatistics slow game w1).1.2 w2).1.2 in
  Game.winner fastFirst = Some (Stats.player fast) ∧
  Game.winnerTime fastFirst = Some (Num q1) ∧
  Game.winnerSpeed fastFirst = Stats.speed fast ∧
  Game.winner slowFirst = Some (Stats.player fast) ∧
  Game.winnerTime slowFirst = Some (Num q1) ∧
  Game.winnerSpeed slowFirst = Stats.speed fast.
Proof.
  intros Hfast Hslow Hq1 Hlt Hnone. cbv zeta.
  assert (Hq2 : (0 < q2)%Qc) by (by etrans).
  assert (Hle1 : (0 ≤ q1)%Qc) by (by apply Qclt_le_weak).
  assert (Hle2 : (0 ≤ q2)%Qc) by (by apply Qclt_le_weak).
  (* the faster result first: it wins, and the slower one does not beat it *)
  destruct (game_updateStatistics_fields fast game w1) as [Hwin1 _].
  destruct Hwin1 as (Hw1 & Ht1 & Hs1).
  { rewrite Hfast. apply winner_test; [done | by left |]. split; [done | by left]. }
  rewrite Hfast in Ht1.
  destruct (game_updateStatistics_fields slow
              (GameSchema.updateStatistics fast game w1).1.2 w2) as [_ Hkeep].
  rewrite Hkeep.
  2:{ apply not_true_is_false. rewrite Hslow. rewrite Ht1.
      rewrite (winner_test (Some (Num q1)) q2 Hle2) by (right; by eexists).
      intros [_ [?|[Hzero|(p & Hp & Hbad)]]]; simplify_eq.
      - by destruct (irreflexivity Qclt 0%Qc).
      - apply (irreflexivity Qclt p). by etrans. }
  (* the slower result first: it wins, and the faster one beats it *)
  destruct (game_updateStatistics_fields slow game w1) as [Hwin2 _].
  destruct Hwin2 as (Hw2 & Ht2 & Hs2).
  { rewrite Hslow. apply winner_test; [done | by left |]. split; [done | by left]. }
  rewrite Hslow in Ht2.
  destruct (game_updateStatistics_fields fast
              (GameSchema.updateStatistics slow game w1).1.2 w2) as [Hwin3 _].
  destruct Hwin3 as (Hw3 & Ht3 & Hs3).
  { rewrite Hfast, Ht2. apply winner_test; [done | right; by eexists |].
    split; [done|]. right; right. by exists q2. }
  rewrite Hfast in Ht3. done.
Qed.

End Scores.

Section Startup.

Import GameSchema UserSchema.

(** X19. After a successful [resetIncomplete] every stored game is
    complete and not viewable.  A game that was incomplete or viewable has
    its counter at 0, an empty roster, joining closed and [wasReset] set,
    while its [playerNames] are left as they were; a game that was complete
    and not viewable is untouched; no game is added or dropped; running it
    again changes no game; and when the driver reports an error the games
    are as before. *)
Theorem resetIncomplete_completes_every_game (w : World) :
  let w' := resetIncomplete None w in
  (∀ k game', games w' !! k = Some game' →
     Game.isComplete game' = true ∧ Game.isViewable game' = false) ∧
  (∀ k game, games w !! k = Some game →
     Game.isComplete game = false ∨ Game.isViewable game = true →
     ∃ game', games w' !! k = Some game' ∧
       Game.numPlayers game' = 0 ∧ Game.players game' = [] ∧
       Game.isJoinable game' = false ∧ Game.wasReset game' = true ∧
       Game.playerNames game' = Game.playerNames game ∧
       Game._id game' = Game._id game) ∧
  (∀ k game, games w !! k = Some game →
     Game.isComplete game = true → Game.isViewable game = false →
     games w' !! k = Some game) ∧
  (∀ k, games w !! k = None ↔ games w' !! k = None) ∧
  games (resetIncomplete None w') = games w' ∧
  (∀ e, games (resetIncomplete (Some e) w) = games w) ∧
  users w' = users w ∧ gameTimeouts w' = gameTimeouts w.
Proof.
  cbv zeta. unfold resetIncomplete. simpl.
  split; [|split; [|split; [|split; [|split; [|done]]]]].
  - intros k game'. rewrite lookup_fmap, fmap_Some. intros (game & _ & ->).
    destruct (Game.isComplete game) eqn:Hc, (Game.isViewable game) eqn:Hv; simpl; done.
  - intros k game Hgame Hmatch. rewrite lookup_fmap, Hgame. simpl.
    eexists. split; [reflexivity|].
    destruct Hmatch as [-> | ->]; simpl; rewrite ?orb_true_r; simpl; done.
  - intros k game Hgame Hc Hv. rewrite lookup_fmap, Hgame. simpl. by rewrite Hc, Hv.
  - intros k. by rewrite lookup_fmap, fmap_None.
  - rewrite <- map_fmap_compose. apply map_fmap_ext. intros k game _. simpl.
    destruct (Game.isComplete game) eqn:Hc, (Game.isViewable game) eqn:Hv; simpl;
      rewrite ?Hc, ?Hv; done.
Qed.

(** X20. After a successful [resetCurrentGames] no stored user has a
    [currentGame], every user is still stored and differs from before in
    that field only; after a successful [resetAnonymous] exactly the users
    that are not anonymous are stored, unchanged.  Neither touches the
    games, and with a driver error the users are as before. *)
Theorem startup_reset_of_users (w : World) :
  (∀ k user', users (resetCurrentGames None w) !! k = Some user' →
     User.currentGame user' = None) ∧
  (∀ k user, users w !! k = Some user →
     users (resetCurrentGames None w) !! k = Some (User.set_currentGame None user)) ∧
  (∀ k, users w !! k = None ↔ users (resetCurrentGames None w) !! k = None) ∧
  (∀ k user, users (resetAnonymous None w) !! k = Some user ↔
     users w !! k = Some user ∧ User.isAnonymous user = false) ∧
  games (resetCurrentGames None w) = games w ∧
  games (resetAnonymous None w) = games w ∧
  (∀ e, users (resetCurrentGames (Some e) w) = users w ∧
        users (resetAnonymous (Some e) w) = users w).
Proof.
  unfold resetCurrentGames, resetAnonymous. simpl.
  split; [|split; [|split; [|split; [|done]]]].
  - intros k user'. rewrite lookup_fmap, fmap_Some. intros (user & _ & ->).
    case_bool_decide as Hsome; [done|].
    destruct (User.currentGame user) eqn:Hcur; [|done].
    destruct Hsome. by eexists.
  - intros k user Huser. rewrite lookup_fmap, Huser. simpl. f_equal.
    case_bool_decide as Hsome; [done|].
    destruct user as [? ? ? ? ? ? ? ? ? ? ? ? ? ? ? [c|]]; simpl in *; [|done].
    destruct Hsome. by eexists.
  - intros k. by rewrite lookup_fmap, fmap_None.
  - intros k user. by rewrite map_lookup_filter_Some.
Qed.

End Startup.

Section Anonymous.

Import UserSchema.

Lemma generate_iterated (a : Z) (i : nat) :
  Nat.iter i (λ c, (generateAnonymousUsername c).1) a = a + Z.of_nat i.
Proof.
  induction i as [|i IH]; [simpl; lia|].
  rewrite Nat.iter_succ, IH. unfold generateAnonymousUsername. simpl. lia.
Qed.

(** X21. Anonymous usernames are never repeated.  Every call of
    [generateAnonymousUsername] advances the counter by one, counters that
    differ give names that differ, and so the names handed out after [i]
    and after [j] earlier calls, [i ≠ j], are different, from whatever
    counter the sequence starts. *)
Theorem anonymous_usernames_are_fresh :
  (∀ a, (generateAnonymousUsername a).1 = a + 1) ∧
  (∀ a b, (generateAnonymousUsername a).2 = (generateAnonymousUsername b).2 → a = b) ∧
  (∀ a (i j : nat), i ≠ j →
     (generateAnonymousUsername
        (Nat.iter i (λ c, (generateAnonymousUsername c).1) a)).2
     ≠ (generateAnonymousUsername
          (Nat.iter j (λ c, (generateAnonymousUsername c).1) a)).2).
Proof.
  assert (Hinj : ∀ a b,
            (generateAnonymousUsername a).2 = (generateAnonymousUsername b).2 → a = b).
  { intros a b. unfold generateAnonymousUsername. simpl. intros Heq.
    apply (inj (String.app "player")) in Heq. apply (inj pretty) in Heq. lia. }
  split; [done|]. split; [exact Hinj|].
  intros a i j Hij Heq. apply Hinj in Heq. rewrite !generate_iterated in Heq. lia.
Qed.

(** X22. [setupAnonymous] starts the counter within its range: for a
    random value in [0, 1) the counter is at least 1000 and below 10000. *)
Theorem setupAnonymous_range (random : Qc) :
  (0 ≤ random)%Qc → (random < 1)%Qc →
  ANONYMOUS_ID_MIN ≤ setupAnonymous random < ANONYMOUS_ID_MAX.
Proof.
  intros Hlo Hhi. unfold setupAnonymous, ANONYMOUS_ID_MIN, ANONYMOUS_ID_MAX.
  change (10000 - 1000) with 9000.
  set (x := (random * Q2Qc (inject_Z 9000))%Qc).
  assert (Hx : (0 <= x /\ x < inject_Z 9000)%Q).
  { subst x. revert Hlo Hhi. unfold Qcle, Qclt. simpl. rewrite !Qred_correct.
    generalize (this random). intros r Hr0 Hr1.
    change (inject_Z 9000) with (9000 # 1)%Q. split; nra. }
  destruct Hx as [Hx0 Hx1].
  assert (0 ≤ Qfloor x).
  { change 0 with (Qfloor 0). by apply Qfloor_resp_le. }
  assert (Qfloor x < 9000).
  { rewrite Zlt_Qlt. eapply Qle_lt_trans; [apply Qfloor_le|done]. }
  lia.
Qed.

Lemma setupAnonymous_range_witness :
  (0 ≤ Q2Qc (1 # 2))%Qc ∧ (Q2Qc (1 # 2) < 1)%Qc ∧
  ANONYMOUS_ID_MIN ≤ setupAnonymous (Q2Qc (1 # 2)) < ANONYMOUS_ID_MAX ∧
  setupAnonymous (Q2Qc (1 # 2)) = 5500.
Proof.
  assert (Hlo : (0 ≤ Q2Qc (1 # 2))%Qc) by (by vm_compute).
  assert (Hhi : (Q2Qc (1 # 2) < 1)%Qc) by (by vm_compute).
  split; [exact Hlo|]. split; [exact Hhi|].
  split; [exact (setupAnonymous_range (Q2Qc (1 # 2)) Hlo Hhi) | by vm_compute].
Defined.

End Anonymous.

Section Catalogue.

(** X23. [randomExercise] picks an exercise of the language: for a random
    value in [0, 1) it returns one of the language's exercises when there
    are any, and nothing when the language has none. *)
Theorem randomExercise_in_catalogue (random : Qc) (lang : Lang.t) :
  (0 ≤ random)%Qc → (random < 1)%Qc →
  (Lang.exercises lang = [] → LangSchema.randomExercise random lang = None) ∧
  (Lang.exercises lang ≠ [] →
     ∃ e, LangSchema.randomExercise random lang = Some e ∧ e ∈ Lang.exercises lang).
Proof.
  intros Hlo Hhi. unfold LangSchema.randomExercise. split.
  - intros ->. by rewrite lookup_nil.
  - intros Hne.
    set (n := length (Lang.exercises lang)).
    assert (Hn : (0 < n)%nat) by (subst n; destruct (Lang.exercises lang); simpl; [done | lia]).
    set (x := (random * Q2Qc (inject_Z (Z.of_nat n)))%Qc).
    assert (Hx : (0 <= x /\ x < inject_Z (Z.of_nat n))%Q).
    { subst x. revert Hlo Hhi. unfold Qcle, Qclt. simpl. rewrite !Qred_correct.
      generalize (this random). intros r Hr0 Hr1.
      assert (Hpos : (0 < inject_Z (Z.of_nat n))%Q).
      { change 0%Q with (inject_Z 0). rewrite <- Zlt_Qlt. lia. }
      change (Qred 0) with 0%Q in *. change (Qred 1) with 1%Q in *.
      split; nra. }
    destruct Hx as [Hx0 Hx1].
    assert (0 ≤ Qfloor x).
    { change 0 with (Qfloor 0). by apply Qfloor_resp_le. }
    assert (Qfloor x < Z.of_nat n).
    { rewrite Zlt_Qlt. eapply Qle_lt_trans; [apply Qfloor_le|done]. }
    destruct (lookup_lt_is_Some_2 (Lang.exercises lang) (Z.to_nat (Qfloor x))) as [e He];
      [fold n; lia|].
    exists e. split; [exact He|]. by eapply list_elem_of_lookup_2.
Qed.

End Catalogue.

Section SourceText.

Import ExerciseSchema.

(** One step of [replaceNewlines]: the character written is not a
    carriage return, and the scan goes on after one or two characters. *)
Lemma replaceNewlines_step (c : Ascii.ascii) (rest : string) :
  ∃ c' rest',
    replaceNewlines (String.String c rest) = String.String c' (replaceNewlines rest') ∧
    c' ≠ CR ∧
    (rest' = rest ∨ ∃ d, rest = String.String d rest').
Proof.
  cbn [replaceNewlines].
  destruct (decide (c = CR)) as [->|Hc]; [|destruct (decide (c = LF)) as [->|Hl]].
  - destruct rest as [|d rest'].
    + exists LF, String.EmptyString. split; [done|]. split; [done|]. by left.
    + destruct (decide (d = LF)) as [->|Hd].
      * exists LF, rest'. split; [done|]. split; [done|]. right. by eexists.
      * exists LF, (String.String d rest'). split; [done|]. split; [done|]. by left.
  - destruct rest as [|d rest'].
    + exists LF, String.EmptyString. split; [done|]. split; [done|]. by left.
    + destruct (decide (d = CR)) as [->|Hd].
      * exists LF, rest'. split; [done|]. split; [done|]. right. by eexists.
      * exists LF, (String.String d rest'). split; [done|]. split; [done|]. by left.
  - exists c, rest. split; [done|]. split; [done|]. by left.
Qed.

Lemma replaceNewlines_bounded (n : nat) (s : string) :
  (String.length s ≤ n)%nat →
  (CR ∉ String.list_ascii_of_string (replaceNewlines s)) ∧
  (String.length (replaceNewlines s) ≤ String.length s)%nat.
Proof.
  revert s. induction n as [|n IH]; intros [|c rest] Hlen; simpl in Hlen;
    try (split; [apply not_elem_of_nil | done]); [lia|].
  destruct (replaceNewlines_step c rest) as (c' & rest' & -> & Hc' & Hrest).
  destruct (IH rest') as [Hno Hle].
  { destruct Hrest as [->|[d ->]]; simpl in *; lia. }
  split.
  - cbn [String.list_ascii_of_string]. rewrite not_elem_of_cons. by split.
  - destruct Hrest as [->|[d ->]]; simpl in *; lia.
Qed.

Lemma replaceNewlines_without_CR (s : string) :
  CR ∉ String.list_ascii_of_string s → replaceNewlines s = s.
Proof.
  induction s as [|c rest IH]; [done|].
  cbn [String.list_ascii_of_string]. rewrite not_elem_of_cons. intros [Hc Hrest].
  cbn [replaceNewlines]. rewrite decide_False by done.
  destruct (decide (c = LF)) as [->|Hl]; [|by rewrite IH by done].
  destruct rest as [|d rest']; [done|].
  rewrite IH by done.
  cbn [String.list_ascii_of_string] in Hrest. rewrite not_elem_of_cons in Hrest.
  by rewrite decide_False by (by destruct Hrest).
Qed.

(** X24. [normalizeNewlines] leaves no carriage return in the code; it
    does not make the code longer; code without a carriage return is left
    as it is; and normalizing twice is normalizing once. *)
Theorem normalizeNewlines_normalizes (exercise : Exercise.t) :
  let exercise' := normalizeNewlines exercise in
  (CR ∉ String.list_ascii_of_string (Exercise.code exercise')) ∧
  (String.length (Exercise.code exercise') ≤ String.length (Exercise.code exercise))%nat ∧
  (CR ∉ String.list_ascii_of_string (Exercise.code exercise) →
     Exercise.code exercise' = Exercise.code exercise) ∧
  normalizeNewlines exercise' = exercise'.
Proof.
  cbv zeta. unfold normalizeNewlines. simpl.
  destruct (replaceNewlines_bounded (String.length (Exercise.code exercise))
              (Exercise.code exercise)) as [Hno Hle]; [done|].
  split; [done|]. split; [done|]. split; [apply replaceNewlines_without_CR|].
  unfold Exercise.set_code. simpl. by rewrite replaceNewlines_without_CR.
Qed.

Lemma chars_app (s1 s2 : string) :
  String.list_ascii_of_string (s1 +:+ s2)
  = String.list_ascii_of_string s1 ++ String.list_ascii_of_string s2.
Proof. induction s1 as [|c s1 IH]; [done|]. cbn. by rewrite <- IH. Qed.

Lemma length_string_app (s1 s2 : string) :
  String.length (s1 +:+ s2) = (String.length s1 + String.length s2)%nat.
Proof. induction s1 as [|c s1 IH]; [done|]. cbn. by rewrite <- IH. Qed.

Lemma replaceTabs_chars (s : string) :
  String.list_ascii_of_string (replaceTabs s)
  = String.list_ascii_of_string s
      ≫= λ c, if decide (c = TAB) then String.list_ascii_of_string "    " else [c].
Proof.
  induction s as [|c rest IH]; [done|].
  cbn [replaceTabs String.list_ascii_of_string]. rewrite bind_cons.
  destruct (decide (c = TAB)).
  - by rewrite chars_app, IH.
  - cbn [String.list_ascii_of_string]. by rewrite IH.
Qed.

Lemma replaceTabs_without_TAB (s : string) :
  TAB ∉ String.list_ascii_of_string s → replaceTabs s = s.
Proof.
  induction s as [|c rest IH]; [done|].
  cbn [String.list_ascii_of_string]. rewrite not_elem_of_cons. intros [Hc Hrest].
  cbn [replaceTabs]. rewrite decide_False by done. by rewrite IH by done.
Qed.

(** X25. [tabsToSpaces] leaves no tab in the code and never shortens it;
    it brings in no carriage return, so after [normalizeNewlines] and then
    [tabsToSpaces] the code has neither; code without a tab is left as it
    is; and converting twice is converting once. *)
Theorem tabsToSpaces_expands (exercise : Exercise.t) :
  let exercise' := tabsToSpaces exercise in
  (TAB ∉ String.list_ascii_of_string (Exercise.code exercise')) ∧
  (String.length (Exercise.code exercise) ≤ String.length (Exercise.code exercise'))%nat ∧
  (CR ∉ String.list_ascii_of_string (Exercise.code exercise) →
     CR ∉ String.list_ascii_of_string (Exercise.code exercise')) ∧
  ((CR ∉ String.list_ascii_of_string
           (Exercise.code (tabsToSpaces (normalizeNewlines exercise)))) ∧
   (TAB ∉ String.list_ascii_of_string
            (Exercise.code (tabsToSpaces (normalizeNewlines exercise))))) ∧
  (TAB ∉ String.list_ascii_of_string (Exercise.code exercise) →
     Exercise.code exercise' = Exercise.code exercise) ∧
  tabsToSpaces exercise' = exercise'.
Proof.
  cbv zeta. unfold tabsToSpaces, normalizeNewlines. simpl.
  assert (Hno : ∀ s, TAB ∉ String.list_ascii_of_string (replaceTabs s)).
  { intros s. rewrite replaceTabs_chars, list_elem_of_bind.
    intros (c & Hin & _). destruct (decide (c = TAB)).
    - apply list_elem_of_In in Hin. simpl in Hin. by intuition discriminate.
    - by apply list_elem_of_singleton in Hin. }
  assert (Hcr : ∀ s, CR ∉ String.list_ascii_of_string s →
                     CR ∉ String.list_ascii_of_string (replaceTabs s)).
  { intros s Hs. rewrite replaceTabs_chars, list_elem_of_bind.
    intros (c & Hin & Hc). destruct (decide (c = TAB)).
    - apply list_elem_of_In in Hin. simpl in Hin. by intuition discriminate.
    - apply list_elem_of_singleton in Hin. by subst c. }
  assert (Hlen : ∀ s, (String.length s ≤ String.length (replaceTabs s))%nat).
  { induction s as [|c rest IH]; [done|]. cbn [replaceTabs].
    destruct (decide (c = TAB)); [rewrite length_string_app|]; simpl; lia. }
  split; [apply Hno|]. split; [apply Hlen|]. split; [apply Hcr|].
  split.
  { split; [|apply Hno]. apply Hcr.
    by destruct (replaceNewlines_bounded _ (Exercise.code exercise) (le_n _)). }
  split; [apply replaceTabs_without_TAB|].
  unfold Exercise.set_code. simpl. by rewrite replaceTabs_without_TAB.
Qed.

End SourceText.

(** ** The properties above on the sample documents *)

Section Runs.

Import GameSchema UserSchema.

(** The waiting lobby of alice and bob reaches its quorum; 2 ms pass
    between the two reads of the clock. *)
Lemma deduceGameState_quorum_witness :
  Game.numPlayers waiting > 1 ∧
  lag lounge = 2 ∧
  Game.starting (deduceGameState waiting lounge).1 = true ∧
  Game.startTime (deduceGameState waiting lounge).1 = Some 20000 ∧
  gameTimeouts (deduceGameState waiting lounge).2 !! "g1"
  = Some {| delay := 14999; action := CloseJoining |}.
Proof.
  assert (Hn : Game.numPlayers waiting > 1) by (by vm_compute).
  assert (Hlag : lag lounge < 15000) by (by vm_compute).
  destruct (deduceGameState_quorum waiting lounge eq_refl eq_refl eq_refl Hn)
    as (Hstarting & Htime & Hopen & _).
  split; [exact Hn|]. split; [reflexivity|]. split; [exact Hstarting|].
  split; [exact Htime|].
  apply Hopen; [reflexivity | by vm_compute | exact Hlag].
Defined.

(** bob left while the lobby was counting down. *)
Lemma deduceGameState_abort_witness :
  Game.starting alone = true ∧
  Game.numPlayers alone = 1 ∧
  Game.starting (deduceGameState alone soloLounge).1 = false ∧
  Game.startTime (deduceGameState alone soloLounge).1 = None ∧
  Game.isJoinable (deduceGameState alone soloLounge).1 = true.
Proof.
  destruct (deduceGameState_abort alone soloLounge eq_refl eq_refl eq_refl eq_refl)
    as (Hstarting & Htime & Hjoinable & _).
  split; [reflexivity|]. split; [reflexivity|]. by repeat split.
Defined.

Lemma fire_starts_the_game_witness :
  gameTimeouts startPending !! "g1" = Some {| delay := 4999; action := StartGame |} ∧
  ∃ game' w',
    fire "g1" startPending = (Returned, w') ∧
    games w' !! "g1" = Some game' ∧
    Game.started game' = true ∧
    Game.startingPlayers game' = [oid "a1"; oid "b2"] ∧
    gameTimeouts w' !! "g1" = None.
Proof.
  assert (Ht : gameTimeouts startPending !! "g1"
               = Some {| delay := 4999; action := StartGame |}) by (by vm_compute).
  assert (Hg : games startPending !! "g1" = Some closed) by (by vm_compute).
  split; [exact Ht|].
  destruct (fire_starts_the_game "g1" closed _ startPending Ht eq_refl eq_refl eq_refl Hg
              eq_refl)
    as (game' & w' & Hfire & Hstored & Hstarted & _ & Hsnapshot & _ & _ & Hnone).
  exists game', w'. by repeat split.
Defined.

Lemma fire_closes_joining_witness :
  gameTimeouts closePending !! "g1" = Some {| delay := 15001; action := CloseJoining |} ∧
  ∃ game' w',
    fire "g1" closePending = (Returned, w') ∧
    games w' !! "g1" = Some game' ∧
    Game.isJoinable game' = false ∧
    gameTimeouts w' !! "g1" = Some {| delay := 5000; action := StartGame |}.
Proof.
  assert (Ht : gameTimeouts closePending !! "g1"
               = Some {| delay := 15001; action := CloseJoining |}) by (by vm_compute).
  assert (Hg : games closePending !! "g1" = Some counting) by (by vm_compute).
  assert (Hmode : Game.isSinglePlayer counting = true ∧ Game.numPlayers counting ≠ 0 ∨
                  Game.isSinglePlayer counting = false ∧ 2 ≤ Game.numPlayers counting)
    by (right; by vm_compute).
  split; [exact Ht|].
  destruct (fire_closes_joining "g1" counting _ closePending 20000 Ht eq_refl eq_refl
              eq_refl Hg eq_refl eq_refl eq_refl eq_refl Hmode)
    as (game' & w' & Hfire & Hstored & Hclosed & Harmed & _).
  exists game', w'. split; [exact Hfire|]. split; [exact Hstored|]. split; [exact Hclosed|].
  apply Harmed. by vm_compute.
Defined.

(** carol creates a practice game, and a race. *)
Lemma createGame_single_player_witness :
  User.currentGame carol = None ∧
  lag lounge = 2 ∧
  ∃ game' user' w',
    createGame practice carol lounge = (Ok game', user', w') ∧
    Game.maxPlayers game' = 1 ∧
    Game.starting game' = true ∧
    Game.startTime game' = Some 5000 ∧
    gameTimeouts w' !! "fresh" = Some {| delay := 4999; action := StartGame |} ∧
    User.currentGame user' = Some (oid "fresh").
Proof.
  assert (Hlag : lag lounge < 5000) by (by vm_compute).
  split; [reflexivity|]. split; [reflexivity|].
  destruct (createGame_single_player practice carol lounge eq_refl eq_refl eq_refl eq_refl
              Hlag)
    as (game' & user' & w' & Hrun & _ & _ & _ & _ & _ & Hmax & _ & _ & _ & Hstarting & _
        & Htime & _ & Htimer & _ & Huser & _).
  exists game', user', w'. rewrite Huser in *. by repeat split.
Defined.

Lemma createGame_multi_player_witness :
  User.currentGame carol = None ∧
  ∃ game' user' w',
    createGame race carol lounge = (Ok game', user', w') ∧
    Game.maxPlayers game' = 4 ∧
    Game.isJoinable game' = true ∧
    Game.starting game' = false ∧
    Game.playerNames game' = ["carol"] ∧
    User.currentGame user' = Some (oid "fresh").
Proof.
  split; [reflexivity|].
  destruct (createGame_multi_player race carol lounge eq_refl eq_refl eq_refl eq_refl)
    as (game' & user' & w' & Hrun & _ & _ & _ & Hnames & _ & Hmax & Hjoinable & _ & _
        & Hstarting & _ & _ & _ & _ & _ & Huser & _).
  exists game', user', w'. rewrite Huser in *. by repeat split.
Defined.

(** carol joins the waiting lobby and leaves it again. *)
Lemma join_then_quit_restores_roster_witness :
  getJoinError waiting carol = None ∧
  ∃ game1 user1 w1 game2 user2 w2,
    joinGame waiting carol lounge = (Ok game1, user1, game1, w1) ∧
    quitCurrentGame user1 w1 = (Ok (Some game2), user2, w2) ∧
    Game.playerNames game2 = ["alice"; "bob"] ∧
    Game.numPlayers game2 = 2 ∧
    User.currentGame user2 = None.
Proof.
  assert (Herr : getJoinError waiting carol = None) by (by vm_compute).
  assert (Hname : User.username carol ∉ Game.playerNames waiting)
    by (apply (bool_decide_unpack _); by vm_compute).
  assert (Hn : 0 ≤ Game.numPlayers waiting) by (by vm_compute).
  split; [exact Herr|].
  destruct (join_then_quit_restores_roster waiting carol lounge Herr Hname Hn
              eq_refl eq_refl eq_refl)
    as (game1 & user1 & w1 & game2 & user2 & w2 & Hjoin & _ & Hquit & _ & Hnames & Hcount
        & Hcurrent & _).
  exists game1, user1, w1, game2, user2, w2. by repeat split.
Defined.

(** alice, alone in her lobby, quits. *)
Lemma last_player_quit_completes_witness :
  User.currentGame alice = Some (oid "g1") ∧
  Game.numPlayers alone = 1 ∧
  ∃ game' w',
    quitCurrentGame alice soloLounge = (Ok (Some game'), User.set_currentGame None alice, w') ∧
    Game.isComplete game' = true ∧
    Game.isViewable game' = false ∧
    emitted w' = [GamesRemove game'].
Proof.
  assert (Hg : games soloLounge !! "g1" = Some alone) by (by vm_compute).
  assert (Hn : Game.numPlayers alone ≤ 1) by (by vm_compute).
  split; [reflexivity|]. split; [reflexivity|].
  destruct (last_player_quit_completes alice soloLounge (oid "g1") alone eq_refl Hg eq_refl
              Hn eq_refl eq_refl eq_refl)
    as (game' & w' & Hquit & Hcomplete & Hviewable & _ & _ & _ & _ & _ & Hremoved).
  exists game', w'. split; [exact Hquit|]. split; [exact Hcomplete|].
  split; [exact Hviewable|]. by apply Hremoved.
Defined.

(** alice's 12 s against bob's 15 s. *)
Lemma winner_is_fastest_in_any_order_witness :
  Stats.time (scored 12000 100) = Some (ofZ 12000) ∧
  Stats.time bobScored = Some (ofZ 15000) ∧
  Game.winner
    (GameSchema.updateStatistics bobScored
       (GameSchema.updateStatistics (scored 12000 100) racing finishLine).1.2 finishLine).1.2
  = Some (oid "a1") ∧
  Game.winner
    (GameSchema.updateStatistics (scored 12000 100)
       (GameSchema.updateStatistics bobScored racing finishLine).1.2 finishLine).1.2
  = Some (oid "a1").
Proof.
  assert (Hpos : (0 < Q2Qc (inject_Z 12000))%Qc) by (by vm_compute).
  assert (Hlt : (Q2Qc (inject_Z 12000) < Q2Qc (inject_Z 15000))%Qc) by (by vm_compute).
  destruct (winner_is_fastest_in_any_order (scored 12000 100) bobScored racing
              finishLine finishLine _ _ eq_refl eq_refl Hpos Hlt eq_refl)
    as (Hfirst & _ & _ & Hsecond & _).
  split; [reflexivity|]. split; [reflexivity|]. by split.
Defined.

Lemma randomExercise_in_catalogue_witness :
  (0 ≤ Q2Qc (1 # 2))%Qc ∧ (Q2Qc (1 # 2) < 1)%Qc ∧
  LangSchema.randomExercise (Q2Qc (1 # 2)) javascript = Some (oid "e2") ∧
  ∃ e, LangSchema.randomExercise (Q2Qc (1 # 2)) javascript = Some e ∧
       e ∈ Lang.exercises javascript.
Proof.
  assert (Hlo : (0 ≤ Q2Qc (1 # 2))%Qc) by (by vm_compute).
  assert (Hhi : (Q2Qc (1 # 2) < 1)%Qc) by (by vm_compute).
  split; [exact Hlo|]. split; [exact Hhi|]. split; [by vm_compute|].
  by apply (randomExercise_in_catalogue (Q2Qc (1 # 2)) javascript Hlo Hhi).
Defined.

End Runs.
